(** * Theme variables of mdeditor: [src/core/theme/variables.js]

    A shallow embedding of the three functions of the module, [hexToRgb],
    [getDarkModeColors] and [computeThemeVariables], and the properties
    its specification states about them.

    JavaScript values are a small inductive type, objects used as
    dictionaries are finite maps from property names to values, and the
    operations that raise a [TypeError] in JavaScript (reading a property
    of [null], calling a string or array method on something else) return
    in a completion monad, so that "does not throw" is a statement about
    the embedding and not a side effect of its typing. *)

From Stdlib Require Import ZArith QArith Ascii String List Lia.
From stdpp Require Import base option list strings pretty gmap.

Local Open Scope string_scope.
Local Open Scope Z_scope.

#[local] Set Warnings "-register-all".

(** ** JavaScript values and completions *)

Module Js.

(** The values a theme field can hold.  Numbers are the integral ones (the
    module computes with small integers only); objects and functions
    stored in a field are not modelled. *)
Inductive value : Type :=
| VUndefined
| VNull
| VBool (b : bool)
| VNum (n : Z)
| VStr (s : string)
| VArr (l : list value).

(** An object used as a dictionary: own properties by name. *)
Abbreviation object := (gmap string value).

(** What a parameter documented as [{Object}] can be bound to. *)
Inductive objref : Type :=
| RUndefined
| RNull
| RObj (o : object).

Inductive error : Type :=
| TypeError.

(** Normal completion with a value, or an exception thrown. *)
Inductive completion (A : Type) : Type :=
| Normal (a : A)
| Throw (e : error).
Arguments Normal {A} a.
Arguments Throw {A} e.

#[global] Instance completion_ret : MRet completion := @Normal.
#[global] Instance completion_bind : MBind completion :=
  fun A B f c => match c with Normal a => f a | Throw e => Throw e end.
#[global] Instance completion_fmap : FMap completion :=
  fun A B f c => match c with Normal a => Normal (f a) | Throw e => Throw e end.

(** [ToBoolean]. *)
Definition truthy (v : value) : bool :=
  match v with
  | VUndefined | VNull => false
  | VBool b => b
  | VNum n => negb (Z.eqb n 0)
  | VStr s => negb (String.eqb s "")
  | VArr _ => true
  end.

Definition truthyRef (o : objref) : bool :=
  match o with
  | RUndefined | RNull => false
  | RObj _ => true
  end.

(** [typeof v === 'string'] *)
Definition isString (v : value) : bool :=
  match v with VStr _ => true | _ => false end.

(** [Array.isArray(v)] *)
Definition isArray (v : value) : bool :=
  match v with VArr _ => true | _ => false end.

(** [o.k] on an object: the own property, [undefined] when there is
    none.  (The names the module reads are not on [Object.prototype].) *)
Definition getField (o : object) (k : string) : value :=
  default VUndefined (o !! k).

(** [o.k] in general: a [TypeError] when [o] is [null] or [undefined]. *)
Definition getProp (o : objref) (k : string) : completion value :=
  match o with
  | RObj m => Normal (getField m k)
  | RUndefined | RNull => Throw TypeError
  end.

(** [{...o}]: the own properties of [o]; spreading [null] or
    [undefined] gives the empty object. *)
Definition spread (o : objref) : object :=
  match o with
  | RObj m => m
  | RUndefined | RNull => ∅
  end.

(** [String(n)] for an integral number, as a template literal
    interpolates it: the decimal digits, after a [-] when negative (the
    numbers printed here are colour components and array positions, far
    below the size where JavaScript changes to exponent notation). *)
Definition numToString (n : Z) : string := pretty n.

(** *** String primitives

    A string is the sequence of the bytes of its text.  The characters
    the module tells apart ([#] and the hex digits) are ASCII, and no byte
    of a longer character is one of them. *)

(** [s.replace(c, rep)] with a one-character string pattern: the first
    occurrence of [c], wherever it is, is replaced; the rest of the
    string is kept. *)
Fixpoint replaceFirst (c : ascii) (rep : string) (s : string) : string :=
  match s with
  | EmptyString => EmptyString
  | String a s' =>
      if Ascii.eqb a c then rep +:+ s' else String a (replaceFirst c rep s')
  end.

(** The method call [v.replace('#', '')]: a [TypeError] unless [v] is a
    string. *)
Definition callReplaceHash (v : value) : completion string :=
  match v with
  | VStr s => Normal (replaceFirst "#"%char "" s)
  | _ => Throw TypeError
  end.

(** The character class [[a-f\d]] under the [i] flag. *)
Definition isDigit (c : ascii) : bool :=
  (48 <=? Z.of_N (N_of_ascii c)) && (Z.of_N (N_of_ascii c) <=? 57).

Definition isHexClass (c : ascii) : bool :=
  let n := Z.of_N (N_of_ascii c) in
  isDigit c || ((97 <=? n) && (n <=? 102)) || ((65 <=? n) && (n <=? 70)).

(** [/^([a-f\d])([a-f\d])([a-f\d])$/i.exec(s)]: the three groups. *)
Definition matchShorthand (s : string) : option (ascii * ascii * ascii) :=
  match s with
  | String r (String g (String b EmptyString)) =>
      if isHexClass r && isHexClass g && isHexClass b
      then Some (r, g, b) else None
  | _ => None
  end.

(** [/^([a-f\d]{2})([a-f\d]{2})([a-f\d]{2})$/i.exec(s)]: the three
    groups, two characters each. *)
Definition matchFull (s : string) : option (string * string * string) :=
  match s with
  | String r1 (String r2 (String g1 (String g2 (String b1 (String b2 EmptyString))))) =>
      if isHexClass r1 && isHexClass r2 && isHexClass g1 && isHexClass g2
         && isHexClass b1 && isHexClass b2
      then Some (String r1 (String r2 EmptyString),
                 String g1 (String g2 EmptyString),
                 String b1 (String b2 EmptyString))
      else None
  | _ => None
  end.

(** [s.replace(shorthand, (m, r, g, b) => r + r + g + g + b + b)] with
    the anchored, non-global [shorthand] pattern: a string that matches
    is replaced as a whole, any other string is returned as it is. *)
Definition expandShorthand (s : string) : string :=
  match matchShorthand s with
  | Some (r, g, b) =>
      String r (String r (String g (String g (String b (String b EmptyString)))))
  | None => s
  end.

(** The value of a digit in base 16. *)
Definition hexDigit (c : ascii) : option Z :=
  let n := Z.of_N (N_of_ascii c) in
  if isDigit c then Some (n - 48)
  else if (97 <=? n) && (n <=? 102) then Some (n - 87)
  else if (65 <=? n) && (n <=? 70) then Some (n - 55)
  else None.

(** [parseInt(s, 16)] on a string that starts with a hex digit: the
    longest prefix of hex digits is read.  ([parseInt] gives [NaN] when
    no digit can be read; the groups of [matchFull] are two hex digits,
    see [matchFull_groups], and the accumulator's start value 0 is what
    is returned here in that case.) *)
Fixpoint parseHexDigits (acc : Z) (s : string) : Z :=
  match s with
  | EmptyString => acc
  | String c s' =>
      match hexDigit c with
      | Some d => parseHexDigits (16 * acc + d) s'
      | None => acc
      end
  end.

Definition parseInt16 (s : string) : Z := parseHexDigits 0 s.

End Js.

Import Js.

(** ** The module *)

Record rgb : Type := mkRgb { r : Z; g : Z; b : Z }.

(** [hexToRgb(hex)]: [None] is the [null] the function returns. *)
Definition hexToRgb (hex : value) : completion (option rgb) :=
  if negb (truthy hex) || negb (isString hex) then mret None
  else
    cleanHex ← callReplaceHash hex;
    let full := expandShorthand cleanHex in
    match matchFull full with
    | None => mret None
    | Some (m1, m2, m3) =>
        mret (Some {| r := parseInt16 m1; g := parseInt16 m2; b := parseInt16 m3 |})
    end.

(** An object literal [{...o, k1: v1, ..., kn: vn}]: the properties are
    defined from left to right, a later one replacing an earlier one of
    the same name. *)
Definition overrideAll (o : object) (kvs : list (string * value)) : object :=
  foldl (fun acc kv => <[kv.1 := kv.2]> acc) o kvs.

(** [arr.forEach((x, index) => ...)] where the callback updates a state
    [S]: the elements are visited in order, with their 0-based index.
    (Arrays are dense lists; an array with holes is not modelled.) *)
Fixpoint forEachFrom {S : Type} (f : S -> value -> Z -> S)
    (l : list value) (index : Z) (st : S) : S :=
  match l with
  | [] => st
  | x :: l' => forEachFrom f l' (index + 1) (f st x index)
  end.

(** The method call [v.forEach(f)]: a [TypeError] unless [v] is an
    array. *)
Definition callForEach {S : Type} (v : value) (f : S -> value -> Z -> S)
    (st : S) : completion S :=
  match v with
  | VArr l => Normal (forEachFrom f l 0 st)
  | _ => Throw TypeError
  end.

(** [`rgb(${x}, ${y}, ${z})`] *)
Definition rgbString (x y z : Z) : string :=
  "rgb(" +:+ numToString x +:+ ", " +:+ numToString y +:+ ", "
         +:+ numToString z +:+ ")".

(** [(rgb.r * 299 + rgb.g * 587 + rgb.b * 114) / 1000], a division of an
    integer by 1000, as a rational.  The only use of the quotient is its
    comparison with 128; the rounded quotient of the source is below 128
    exactly when the rational one is (see [brightness_lt_128]). *)
Definition brightness (c : rgb) : Q :=
  (inject_Z (r c * 299 + g c * 587 + b c * 114) / inject_Z 1000)%Q.

(** The fixed part of the dark theme, lines 31 to 58 of the source; the
    two entries that carry the primary colour take it as [primary]. *)
Definition darkOverrides (primary : value) : list (string * value) :=
  [ ("bgPrimary", VStr "#1a1a1a");
    ("bgSecondary", VStr "#2d2d2d");
    ("bgTertiary", VStr "#3a3a3a");
    ("textPrimary", VStr "#e6e6e6");
    ("textSecondary", VStr "#b3b3b3");
    ("textTertiary", VStr "#888888");
    ("borderLight", VStr "#404040");
    ("borderMedium", VStr "#555555");
    ("inlineCodeBg", VStr "rgba(255, 255, 255, 0.1)");
    ("inlineCodeText", VStr "#f8f8f2");
    ("inlineCodeBorder", VStr "rgba(255, 255, 255, 0.15)");
    ("blockquoteBackground", VStr "rgba(255, 255, 255, 0.05)");
    ("blockquoteBorder", primary);
    ("tableHeaderBg", VStr "#2d2d2d");
    ("tableBorder", VStr "#404040");
    ("hrColor", primary) ].

(** [getDarkModeColors(originalTheme)].  [originalTheme.primary] is read
    where the object literal first evaluates it; the later reads of the
    same property give the same value. *)
Definition getDarkModeColors (originalTheme : objref) : completion object :=
  primary ← getProp originalTheme "primary";
  let adjustedTheme := overrideAll (spread originalTheme) (darkOverrides primary) in
  if truthy primary then
    rgb ← hexToRgb primary;
    match rgb with
    | Some rgb =>
        if Qlt_le_dec (brightness rgb) (inject_Z 128) then
          let lighterR := Z.min 255 (r rgb + 80) in
          let lighterG := Z.min 255 (g rgb + 80) in
          let lighterB := Z.min 255 (b rgb + 80) in
          mret (overrideAll adjustedTheme
            [ ("primary", VStr (rgbString lighterR lighterG lighterB));
              ("primaryHover",
                VStr (rgbString (Z.min 255 (lighterR + 20))
                                (Z.min 255 (lighterG + 20))
                                (Z.min 255 (lighterB + 20))));
              ("primaryDark",
                VStr (rgbString (Z.min 255 (lighterR - 20))
                                (Z.min 255 (lighterG - 20))
                                (Z.min 255 (lighterB - 20)))) ])
        else mret adjustedTheme
    | None => mret adjustedTheme
    end
  else mret adjustedTheme.

(** The object literal of lines 94 to 115: variable name, theme field. *)
Definition variableTable : list (string * string) :=
  [ ("--theme-primary", "primary");
    ("--theme-primary-hover", "primaryHover");
    ("--theme-primary-light", "primaryLight");
    ("--theme-primary-dark", "primaryDark");
    ("--theme-text-primary", "textPrimary");
    ("--theme-text-secondary", "textSecondary");
    ("--theme-text-tertiary", "textTertiary");
    ("--theme-bg-primary", "bgPrimary");
    ("--theme-bg-secondary", "bgSecondary");
    ("--theme-bg-tertiary", "bgTertiary");
    ("--theme-border-light", "borderLight");
    ("--theme-border-medium", "borderMedium");
    ("--theme-inline-code-bg", "inlineCodeBg");
    ("--theme-inline-code-text", "inlineCodeText");
    ("--theme-inline-code-border", "inlineCodeBorder");
    ("--theme-blockquote-border", "blockquoteBorder");
    ("--theme-blockquote-bg", "blockquoteBackground");
    ("--theme-hr-color", "hrColor");
    ("--theme-table-header-bg", "tableHeaderBg");
    ("--theme-table-border", "tableBorder") ].

(** Reading the fields of the table off [theme], in order. *)
Definition readFields (theme : objref) (tbl : list (string * string))
    : completion (list (string * value)) :=
  mapM (fun nf => v ← getProp theme nf.2; mret (nf.1, v)) tbl.

(** [`--theme-list-color-${index + 1}`] *)
Definition listColorName (index : Z) : string :=
  "--theme-list-color-" +:+ numToString (index + 1).

(** [`${rgb.r}, ${rgb.g}, ${rgb.b}`] and
    [`rgba(${rgb.r}, ${rgb.g}, ${rgb.b}, 0.NN)`], [alpha] being the
    literal text of the last component. *)
Definition rgbList (c : rgb) : string :=
  numToString (r c) +:+ ", " +:+ numToString (g c) +:+ ", " +:+ numToString (b c).

Definition rgbaString (c : rgb) (alpha : string) : string :=
  "rgba(" +:+ rgbList c +:+ ", " +:+ alpha +:+ ")".

(** [computeThemeVariables(colorTheme, isDarkMode)]; a call without the
    second argument is the call with [false]. *)
Definition computeThemeVariables (colorTheme : objref) (isDarkMode : bool)
    : completion object :=
  if negb (truthyRef colorTheme) then mret ∅
  else
    theme ← (if isDarkMode then RObj <$> getDarkModeColors colorTheme
             else mret colorTheme);
    fields ← readFields theme variableTable;
    let variables := overrideAll ∅ fields in
    listColors ← getProp colorTheme "listColors";
    variables ←
      (if truthy listColors && isArray listColors then
         callForEach listColors
           (fun vars color index => <[listColorName index := color]> vars)
           variables
       else mret variables);
    primary ← getProp colorTheme "primary";
    if truthy primary then
      rgb ← hexToRgb primary;
      match rgb with
      | Some rgb =>
          mret (overrideAll variables
            [ ("--theme-primary-rgb", VStr (rgbList rgb));
              ("--theme-primary-15", VStr (rgbaString rgb "0.15"));
              ("--theme-primary-20", VStr (rgbaString rgb "0.20"));
              ("--theme-primary-25", VStr (rgbaString rgb "0.25"));
              ("--theme-primary-40", VStr (rgbaString rgb "0.40"));
              ("--theme-primary-60", VStr (rgbaString rgb "0.60")) ])
      | None => mret variables
      end
    else mret variables.

(** ** A serializer for the round trip

    The module has no function from a triple back to a string; the round
    trip of the specification is stated with this one, which writes each
    component as two lower-case hex digits after a [#]. *)
Definition hexChar (d : Z) : ascii :=
  if d <? 10 then ascii_of_N (Z.to_N (48 + d)) else ascii_of_N (Z.to_N (87 + d)).

Definition hex2 (n : Z) : string :=
  String (hexChar (n / 16)) (String (hexChar (n mod 16)) EmptyString).

Definition rgbToHex (c : rgb) : string :=
  "#" +:+ hex2 (r c) +:+ hex2 (g c) +:+ hex2 (b c).

(** The reading of "strips a leading [#]" the specification gives: only
    a [#] in first position is removed. *)
Definition stripLeadingHash (s : string) : string :=
  match s with
  | String "#" s' => s'
  | _ => s
  end.

(** All characters of [s] are hex digits. *)
Fixpoint allHex (s : string) : bool :=
  match s with
  | EmptyString => true
  | String c s' => isHexClass c && allHex s'
  end.

(** The rightmost binding of [k] in an association list. *)
Fixpoint lastAssoc (k : string) (kvs : list (string * value)) : option value :=
  match kvs with
  | [] => None
  | kv :: rest =>
      match lastAssoc k rest with
      | Some w => Some w
      | None => if String.eqb kv.1 k then Some kv.2 else None
      end
  end.

(** Names for the three stages of [computeThemeVariables], to state what
    it returns: the object literal, the [forEach] over [listColors], and
    the entries derived from the parsed primary colour. *)
Definition fixedVariables (theme : object) : object :=
  overrideAll ∅ (map (fun nf => (nf.1, getField theme nf.2)) variableTable).

Definition withListColors (listColors : value) (variables : object) : object :=
  match listColors with
  | VArr l =>
      forEachFrom (fun vars color index => <[listColorName index := color]> vars)
        l 0 variables
  | _ => variables
  end.

Definition primaryAlphaEntries (c : rgb) : list (string * value) :=
  [ ("--theme-primary-rgb", VStr (rgbList c));
    ("--theme-primary-15", VStr (rgbaString c "0.15"));
    ("--theme-primary-20", VStr (rgbaString c "0.20"));
    ("--theme-primary-25", VStr (rgbaString c "0.25"));
    ("--theme-primary-40", VStr (rgbaString c "0.40"));
    ("--theme-primary-60", VStr (rgbaString c "0.60")) ].

(** A name that is not the name of a list colour, and the other side
    conditions of the lookup lemmas, at a name given in full. *)
Ltac not_list_name :=
  let j := fresh "j" in
  let E := fresh "E" in
  intros j E; unfold listColorName in E; discriminate E.

Ltac alpha_name :=
  first [ not_list_name | intros; reflexivity ].

(** Themes of the specification's examples. *)
Definition black : object := {[ "primary" := VStr "#000000" ]}.
Definition white : object := {[ "primary" := VStr "#FFFFFF" ]}.
Definition blackWithBorders : object :=
  <[ "blockquoteBorder" := VStr "#abcdef" ]> (<[ "hrColor" := VStr "#123456" ]> black).

(** ** Names and string operations used to state further properties *)

(** The field names the object literal of [getDarkModeColors] sets, the
    names of the result of [computeThemeVariables] that come from the
    object literal, and those derived from the parsed primary colour. *)
Definition darkFieldNames : list string :=
  [ "bgPrimary"; "bgSecondary"; "bgTertiary";
    "textPrimary"; "textSecondary"; "textTertiary";
    "borderLight"; "borderMedium";
    "inlineCodeBg"; "inlineCodeText"; "inlineCodeBorder";
    "blockquoteBackground"; "blockquoteBorder";
    "tableHeaderBg"; "tableBorder"; "hrColor" ].

Definition primaryFamily : list string :=
  [ "primary"; "primaryHover"; "primaryDark" ].

Definition fixedNames : list string := map fst variableTable.

Definition alphaNames : list string :=
  [ "--theme-primary-rgb"; "--theme-primary-15"; "--theme-primary-20";
    "--theme-primary-25"; "--theme-primary-40"; "--theme-primary-60" ].

(** A function applied to every character of a string. *)
Fixpoint mapString (f : ascii -> ascii) (s : string) : string :=
  match s with
  | EmptyString => EmptyString
  | String c s' => String (f c) (mapString f s')
  end.

(** Upper and lower case of the letters a to z, every other character
    kept. *)
Definition upcase (c : ascii) : ascii :=
  let n := Z.of_N (N_of_ascii c) in
  if (97 <=? n) && (n <=? 122) then ascii_of_N (Z.to_N (n - 32)) else c.

Definition downcase (c : ascii) : ascii :=
  let n := Z.of_N (N_of_ascii c) in
  if (65 <=? n) && (n <=? 90) then ascii_of_N (Z.to_N (n + 32)) else c.

(** The string has no [#]. *)
Fixpoint noHash (s : string) : bool :=
  match s with
  | EmptyString => true
  | String c s' => negb (Ascii.eqb c "#") && noHash s'
  end.

(** Themes for the examples of the further properties. *)
Definition navy : object :=
  {[ "primary" := VStr "#000080" ]}.
Definition navyFull : object :=
  <[ "primaryLight" := VStr "#ccccff" ]>
    (<[ "listColors" := VArr [VStr "#111111"; VStr "#222222"] ]>
      (<[ "bgPrimary" := VStr "#ffffff" ]> navy)).
Definition oddList : object :=
  <[ "listColors" := VStr "#111111" ]> white.

(** ** Characters, groups and [parseInt] *)

Section HexDigits.

Lemma isHexClass_hexDigit (c : ascii) :
  isHexClass c = true -> exists d, hexDigit c = Some d /\ 0 <= d < 16.
Proof.
  destruct c as [[] [] [] [] [] [] [] []]; vm_compute; intros H;
    try discriminate H; eexists; (split; [reflexivity | split; [discriminate | reflexivity]]).
Qed.

Lemma hexDigit_isHexClass (c : ascii) (d : Z) :
  hexDigit c = Some d -> isHexClass c = true.
Proof.
  destruct c as [[] [] [] [] [] [] [] []]; vm_compute; intros H;
    try discriminate H; reflexivity.
Qed.

Lemma isHexClass_not_hash (c : ascii) :
  isHexClass c = true -> Ascii.eqb c "#" = false.
Proof.
  destruct c as [[] [] [] [] [] [] [] []]; vm_compute; intros H;
    try discriminate H; reflexivity.
Qed.

Lemma parseInt16_pair (c1 c2 : ascii) (d1 d2 : Z) :
  hexDigit c1 = Some d1 -> hexDigit c2 = Some d2 ->
  parseInt16 (String c1 (String c2 EmptyString)) = 16 * d1 + d2.
Proof.
  intros H1 H2. unfold parseInt16. simpl. rewrite H1, H2. lia.
Qed.

Lemma matchFull_groups (s m1 m2 m3 : string) :
  matchFull s = Some (m1, m2, m3) ->
  exists c1 c2 c3 c4 c5 c6,
    s = String c1 (String c2 (String c3 (String c4 (String c5 (String c6 EmptyString)))))
    /\ m1 = String c1 (String c2 EmptyString)
    /\ m2 = String c3 (String c4 EmptyString)
    /\ m3 = String c5 (String c6 EmptyString)
    /\ isHexClass c1 = true /\ isHexClass c2 = true /\ isHexClass c3 = true
    /\ isHexClass c4 = true /\ isHexClass c5 = true /\ isHexClass c6 = true.
Proof.
  destruct s as [|c1 [|c2 [|c3 [|c4 [|c5 [|c6 [|c7 s]]]]]]]; simpl; try discriminate.
  destruct (isHexClass c1) eqn:E1; [|discriminate].
  destruct (isHexClass c2) eqn:E2; [|discriminate].
  destruct (isHexClass c3) eqn:E3; [|discriminate].
  destruct (isHexClass c4) eqn:E4; [|discriminate].
  destruct (isHexClass c5) eqn:E5; [|discriminate].
  destruct (isHexClass c6) eqn:E6; [|discriminate].
  simpl. intros [= <- <- <-].
  exists c1, c2, c3, c4, c5, c6. repeat split; assumption.
Qed.

Lemma matchFull_allHex (s : string) :
  is_Some (matchFull s) <-> allHex s = true /\ String.length s = 6%nat.
Proof.
  split.
  - intros [[[m1 m2] m3] H].
    destruct (matchFull_groups _ _ _ _ H)
      as (c1 & c2 & c3 & c4 & c5 & c6 & -> & _ & _ & _ & H1 & H2 & H3 & H4 & H5 & H6).
    simpl. rewrite H1, H2, H3, H4, H5, H6. split; reflexivity.
  - intros [Hall Hlen].
    destruct s as [|c1 [|c2 [|c3 [|c4 [|c5 [|c6 [|c7 s]]]]]]]; simpl in Hlen; try discriminate.
    simpl in Hall. simpl.
    destruct (isHexClass c1); [|discriminate].
    destruct (isHexClass c2); [|discriminate].
    destruct (isHexClass c3); [|discriminate].
    destruct (isHexClass c4); [|discriminate].
    destruct (isHexClass c5); [|discriminate].
    destruct (isHexClass c6); [|discriminate].
    simpl. eexists. reflexivity.
Qed.

Lemma matchShorthand_allHex (s : string) :
  is_Some (matchShorthand s) <-> allHex s = true /\ String.length s = 3%nat.
Proof.
  split.
  - intros [[[c1 c2] c3] H].
    destruct s as [|a1 [|a2 [|a3 [|a4 s]]]]; simpl in H; try discriminate.
    simpl.
    destruct (isHexClass a1); [|discriminate].
    destruct (isHexClass a2); [|discriminate].
    destruct (isHexClass a3); [|discriminate].
    split; reflexivity.
  - intros [Hall Hlen].
    destruct s as [|a1 [|a2 [|a3 [|a4 s]]]]; simpl in Hlen; try discriminate.
    simpl in Hall. simpl.
    destruct (isHexClass a1); [|discriminate].
    destruct (isHexClass a2); [|discriminate].
    destruct (isHexClass a3); [|discriminate].
    simpl. eexists. reflexivity.
Qed.

End HexDigits.

(** ** [hexToRgb] *)

Section HexToRgb.

Example hexToRgb_00A86B :
  hexToRgb (VStr "#00A86B") = Normal (Some (mkRgb 0 168 107))
  /\ hexToRgb (VStr "00A86B") = Normal (Some (mkRgb 0 168 107)).
Proof. split; reflexivity. Qed.

Lemma hexToRgb_nonstring (v : value) :
  isString v = false -> hexToRgb v = Normal None.
Proof.
  intros H. unfold hexToRgb. rewrite H.
  rewrite orb_true_r. reflexivity.
Qed.

Lemma hexToRgb_str (s : string) :
  hexToRgb (VStr s) =
  Normal (match matchFull (expandShorthand (replaceFirst "#" "" s)) with
          | None => None
          | Some (m1, m2, m3) =>
              Some {| r := parseInt16 m1; g := parseInt16 m2; b := parseInt16 m3 |}
          end).
Proof.
  destruct s as [|c s]; [reflexivity|].
  unfold hexToRgb. simpl truthy. simpl isString. simpl negb. simpl orb.
  unfold callReplaceHash. simpl mbind. unfold mbind, completion_bind.
  destruct (matchFull _) as [[[m1 m2] m3]|]; reflexivity.
Qed.

(** [hexToRgb] never throws. *)
Lemma hexToRgb_normal (v : value) : exists x, hexToRgb v = Normal x.
Proof.
  destruct v; try (eexists; apply hexToRgb_nonstring; reflexivity).
  eexists. apply hexToRgb_str.
Qed.

Lemma hexToRgb_Some_iff (s : string) :
  (exists c, hexToRgb (VStr s) = Normal (Some c)) <->
  is_Some (matchFull (expandShorthand (replaceFirst "#" "" s))).
Proof.
  rewrite hexToRgb_str.
  destruct (matchFull _) as [[[m1 m2] m3]|]; split.
  - intros _. eexists. reflexivity.
  - intros _. eexists. reflexivity.
  - intros [c [=]].
  - intros [x [=]].
Qed.

Lemma hexToRgb_None_iff (s : string) :
  hexToRgb (VStr s) = Normal None <->
  matchFull (expandShorthand (replaceFirst "#" "" s)) = None.
Proof.
  rewrite hexToRgb_str.
  destruct (matchFull _) as [[[m1 m2] m3]|]; split; intros [=]; reflexivity.
Qed.

(** What a successful parse returns: three bytes, each from two digits. *)
Lemma hexToRgb_Some_digits (s : string) (c : rgb) :
  hexToRgb (VStr s) = Normal (Some c) ->
  exists c1 c2 c3 c4 c5 c6 d1 d2 d3 d4 d5 d6,
    expandShorthand (replaceFirst "#" "" s)
    = String c1 (String c2 (String c3 (String c4 (String c5 (String c6 EmptyString)))))
    /\ hexDigit c1 = Some d1 /\ hexDigit c2 = Some d2 /\ hexDigit c3 = Some d3
    /\ hexDigit c4 = Some d4 /\ hexDigit c5 = Some d5 /\ hexDigit c6 = Some d6
    /\ 0 <= d1 < 16 /\ 0 <= d2 < 16 /\ 0 <= d3 < 16
    /\ 0 <= d4 < 16 /\ 0 <= d5 < 16 /\ 0 <= d6 < 16
    /\ c = mkRgb (16 * d1 + d2) (16 * d3 + d4) (16 * d5 + d6).
Proof.
  rewrite hexToRgb_str.
  destruct (matchFull _) as [[[m1 m2] m3]|] eqn:Hm; [|discriminate].
  intros [= <-].
  destruct (matchFull_groups _ _ _ _ Hm)
    as (c1 & c2 & c3 & c4 & c5 & c6 & Hs & -> & -> & -> & H1 & H2 & H3 & H4 & H5 & H6).
  destruct (isHexClass_hexDigit _ H1) as (d1 & E1 & B1).
  destruct (isHexClass_hexDigit _ H2) as (d2 & E2 & B2).
  destruct (isHexClass_hexDigit _ H3) as (d3 & E3 & B3).
  destruct (isHexClass_hexDigit _ H4) as (d4 & E4 & B4).
  destruct (isHexClass_hexDigit _ H5) as (d5 & E5 & B5).
  destruct (isHexClass_hexDigit _ H6) as (d6 & E6 & B6).
  exists c1, c2, c3, c4, c5, c6, d1, d2, d3, d4, d5, d6.
  rewrite (parseInt16_pair _ _ _ _ E1 E2), (parseInt16_pair _ _ _ _ E3 E4),
    (parseInt16_pair _ _ _ _ E5 E6).
  repeat (split; [assumption || reflexivity|]). reflexivity.
Qed.

Lemma expandShorthand_accepts (body : string) :
  is_Some (matchFull (expandShorthand body)) <->
  allHex body = true /\ (String.length body = 3 \/ String.length body = 6)%nat.
Proof.
  unfold expandShorthand.
  destruct (matchShorthand body) as [[[c1 c2] c3]|] eqn:Hs.
  - assert (H3 : allHex body = true /\ String.length body = 3%nat)
      by (apply matchShorthand_allHex; eexists; exact Hs).
    destruct body as [|a1 [|a2 [|a3 [|a4 body]]]]; simpl in Hs; try discriminate.
    destruct (isHexClass a1) eqn:E1; [|discriminate].
    destruct (isHexClass a2) eqn:E2; [|discriminate].
    destruct (isHexClass a3) eqn:E3; [|discriminate].
    simpl in Hs. injection Hs as <- <- <-.
    split.
    + intros _. split; [apply H3|left; reflexivity].
    + intros _. apply matchFull_allHex. simpl. rewrite E1, E2, E3. split; reflexivity.
  - rewrite matchFull_allHex. split.
    + intros [Hall Hlen]. split; [exact Hall|right; exact Hlen].
    + intros [Hall [Hlen|Hlen]]; [|split; assumption].
      exfalso. assert (Hm : is_Some (matchShorthand body))
        by (apply matchShorthand_allHex; split; assumption).
      rewrite Hs in Hm. destruct Hm as [x Hx]. discriminate.
Qed.

Lemma hexChar_digit (d : Z) :
  0 <= d < 16 -> hexDigit (hexChar d) = Some d /\ isHexClass (hexChar d) = true.
Proof.
  intros Hd.
  assert (H : d = 0 \/ d = 1 \/ d = 2 \/ d = 3 \/ d = 4 \/ d = 5 \/ d = 6 \/ d = 7 \/
              d = 8 \/ d = 9 \/ d = 10 \/ d = 11 \/ d = 12 \/ d = 13 \/ d = 14 \/ d = 15)
    by lia.
  repeat (destruct H as [->|H]; [split; reflexivity|]).
  subst d. split; reflexivity.
Qed.

Lemma rgbToHex_body (c : rgb) :
  replaceFirst "#" "" (rgbToHex c)
  = String (hexChar (r c / 16)) (String (hexChar (r c mod 16))
      (String (hexChar (g c / 16)) (String (hexChar (g c mod 16))
        (String (hexChar (b c / 16)) (String (hexChar (b c mod 16)) EmptyString))))).
Proof. reflexivity. Qed.

(** The serialized triple parses back to itself. *)
Lemma hexToRgb_rgbToHex (x y z : Z) :
  0 <= x <= 255 -> 0 <= y <= 255 -> 0 <= z <= 255 ->
  hexToRgb (VStr (rgbToHex (mkRgb x y z))) = Normal (Some (mkRgb x y z)).
Proof.
  intros Hx Hy Hz. rewrite hexToRgb_str, rgbToHex_body. cbn [r g b].
  assert (Hd : forall n, 0 <= n <= 255 -> 0 <= n / 16 < 16 /\ 0 <= n mod 16 < 16).
  { intros n Hn. split.
    - split; [apply Z.div_pos; lia|apply Z.div_lt_upper_bound; lia].
    - apply Z.mod_pos_bound. lia. }
  destruct (Hd x Hx) as [Hx1 Hx2]. destruct (Hd y Hy) as [Hy1 Hy2].
  destruct (Hd z Hz) as [Hz1 Hz2].
  destruct (hexChar_digit _ Hx1) as [Dx1 Cx1]. destruct (hexChar_digit _ Hx2) as [Dx2 Cx2].
  destruct (hexChar_digit _ Hy1) as [Dy1 Cy1]. destruct (hexChar_digit _ Hy2) as [Dy2 Cy2].
  destruct (hexChar_digit _ Hz1) as [Dz1 Cz1]. destruct (hexChar_digit _ Hz2) as [Dz2 Cz2].
  unfold expandShorthand. cbn [matchShorthand matchFull]. rewrite Cx1, Cx2, Cy1, Cy2, Cz1, Cz2. cbn [andb].
  rewrite (parseInt16_pair _ _ _ _ Dx1 Dx2), (parseInt16_pair _ _ _ _ Dy1 Dy2),
    (parseInt16_pair _ _ _ _ Dz1 Dz2).
  f_equal. f_equal.
  rewrite <- (Z.div_mod x 16), <- (Z.div_mod y 16), <- (Z.div_mod z 16) by lia.
  reflexivity.
Qed.

End HexToRgb.

(** ** Object literals, [forEach] and names *)

Section Objects.

Lemma lookup_overrideAll (o : object) (kvs : list (string * value)) (k : string) :
  overrideAll o kvs !! k = from_option Some (o !! k) (lastAssoc k kvs).
Proof.
  revert o. induction kvs as [|[k' v] rest IH]; intros o; [reflexivity|].
  unfold overrideAll in *. simpl foldl. rewrite IH. simpl lastAssoc.
  destruct (lastAssoc k rest) as [w|]; [reflexivity|]. simpl.
  destruct (String.eqb_spec k' k) as [->|Hne].
  - apply lookup_insert_eq.
  - apply lookup_insert_ne, Hne.
Qed.

Lemma lookup_overrideAll_Some (o : object) kvs (k : string) (v : value) :
  lastAssoc k kvs = Some v -> overrideAll o kvs !! k = Some v.
Proof. intros H. rewrite lookup_overrideAll, H. reflexivity. Qed.

Lemma lookup_overrideAll_None (o : object) kvs (k : string) :
  lastAssoc k kvs = None -> overrideAll o kvs !! k = o !! k.
Proof. intros H. rewrite lookup_overrideAll, H. reflexivity. Qed.

Lemma readFields_obj (m : object) (tbl : list (string * string)) :
  readFields (RObj m) tbl = Normal (map (fun nf => (nf.1, getField m nf.2)) tbl).
Proof.
  unfold readFields. induction tbl as [|nf tbl IH]; [reflexivity|].
  cbn [mapM map]. rewrite IH. reflexivity.
Qed.

Lemma listColorName_inj (i j : Z) : listColorName i = listColorName j -> i = j.
Proof.
  unfold listColorName, numToString. intros H.
  apply (inj (String.app _)) in H. apply (inj pretty) in H. lia.
Qed.

(** A name the callback never writes is left as it was. *)
Lemma forEachFrom_lookup_other (l : list value) (index : Z) (st : object) (k : string) :
  (forall j, index <= j < index + Z.of_nat (length l) -> k <> listColorName j) ->
  forEachFrom (fun vars color i => <[listColorName i := color]> vars) l index st !! k
  = st !! k.
Proof.
  revert index st. induction l as [|x l IH]; intros index st Hk; [reflexivity|].
  simpl forEachFrom. rewrite IH.
  - apply lookup_insert_ne. intros E. apply (Hk index); [|congruence].
    simpl length. lia.
  - intros j Hj. apply Hk. simpl length. lia.
Qed.

(** The element at position [n] is stored under the name of [index + n]. *)
Lemma forEachFrom_lookup (l : list value) (index : Z) (st : object) (n : nat) (v : value) :
  l !! n = Some v ->
  forEachFrom (fun vars color i => <[listColorName i := color]> vars) l index st
    !! listColorName (index + Z.of_nat n) = Some v.
Proof.
  revert index st n. induction l as [|x l IH]; intros index st n Hn; [discriminate|].
  simpl forEachFrom. destruct n as [|n].
  - injection Hn as ->. rewrite forEachFrom_lookup_other.
    + replace (index + Z.of_nat 0) with index by lia. apply lookup_insert_eq.
    + intros j Hj E. apply listColorName_inj in E. lia.
  - replace (index + Z.of_nat (S n)) with (index + 1 + Z.of_nat n) by lia.
    apply IH. exact Hn.
Qed.

End Objects.

(** ** [getDarkModeColors] and [computeThemeVariables] on an object *)

Section OnObjects.

Lemma Normal_inj {A : Type} (x y : A) : Normal x = Normal y -> x = y.
Proof. intros H. congruence. Qed.

Lemma hexToRgb_falsy (v : value) : truthy v = false -> hexToRgb v = Normal None.
Proof. intros H. unfold hexToRgb. rewrite H. reflexivity. Qed.

Lemma hexToRgb_Some_truthy (v : value) (c : rgb) :
  hexToRgb v = Normal (Some c) -> truthy v = true.
Proof.
  intros H. destruct (truthy v) eqn:E; [reflexivity|].
  rewrite (hexToRgb_falsy _ E) in H. discriminate.
Qed.

(** The comparison of the brightness with 128, on integers. *)
Lemma brightness_lt_128 (c : rgb) :
  (brightness c < inject_Z 128)%Q <-> r c * 299 + g c * 587 + b c * 114 < 128000.
Proof.
  unfold brightness, Qlt, Qdiv, Qmult, Qinv, inject_Z. simpl. lia.
Qed.

(** When the primary colour parses and is dark. *)
Lemma getDarkModeColors_dark (o : object) (c : rgb) :
  hexToRgb (getField o "primary") = Normal (Some c) ->
  (brightness c < inject_Z 128)%Q ->
  getDarkModeColors (RObj o) =
  Normal (overrideAll (overrideAll o (darkOverrides (getField o "primary")))
    [ ("primary",
        VStr (rgbString (Z.min 255 (r c + 80)) (Z.min 255 (g c + 80)) (Z.min 255 (b c + 80))));
      ("primaryHover",
        VStr (rgbString (Z.min 255 (Z.min 255 (r c + 80) + 20))
                        (Z.min 255 (Z.min 255 (g c + 80) + 20))
                        (Z.min 255 (Z.min 255 (b c + 80) + 20))));
      ("primaryDark",
        VStr (rgbString (Z.min 255 (Z.min 255 (r c + 80) - 20))
                        (Z.min 255 (Z.min 255 (g c + 80) - 20))
                        (Z.min 255 (Z.min 255 (b c + 80) - 20)))) ]).
Proof.
  intros Hp Hb. unfold getDarkModeColors. cbn [getProp mbind completion_bind spread].
  rewrite (hexToRgb_Some_truthy _ _ Hp), Hp. cbn [mbind completion_bind].
  destruct (Qlt_le_dec (brightness c) (inject_Z 128)) as [_|Hle]; [reflexivity|].
  exfalso. exact (Qlt_not_le _ _ Hb Hle).
Qed.

(** In every other case only the fixed overrides apply. *)
Lemma getDarkModeColors_plain (o : object) :
  (hexToRgb (getField o "primary") = Normal None
   \/ exists c, hexToRgb (getField o "primary") = Normal (Some c)
                /\ (inject_Z 128 <= brightness c)%Q) ->
  getDarkModeColors (RObj o) =
  Normal (overrideAll o (darkOverrides (getField o "primary"))).
Proof.
  intros H. unfold getDarkModeColors. cbn [getProp mbind completion_bind spread].
  destruct (truthy (getField o "primary")) eqn:Ht; [|reflexivity].
  destruct H as [Hp|(c & Hp & Hb)]; rewrite Hp; cbn [mbind completion_bind]; [reflexivity|].
  destruct (Qlt_le_dec (brightness c) (inject_Z 128)) as [Hlt|_]; [|reflexivity].
  exfalso. exact (Qlt_not_le _ _ Hlt Hb).
Qed.

(** [getDarkModeColors] returns on every object. *)
Lemma getDarkModeColors_normal (o : object) :
  exists t, getDarkModeColors (RObj o) = Normal t.
Proof.
  destruct (hexToRgb_normal (getField o "primary")) as [[c|] Hp].
  - destruct (Qlt_le_dec (brightness c) (inject_Z 128)) as [Hlt|Hle].
    + eexists. apply (getDarkModeColors_dark _ _ Hp Hlt).
    + eexists. apply getDarkModeColors_plain. right. exists c. split; assumption.
  - eexists. apply getDarkModeColors_plain. left. exact Hp.
Qed.

(** The fields the fixed overrides set, whatever happens to the primary
    family afterwards. *)
Lemma getDarkModeColors_fixed (o t : object) (k : string) (v : value) :
  getDarkModeColors (RObj o) = Normal t ->
  lastAssoc k (darkOverrides (getField o "primary")) = Some v ->
  t !! k = Some v.
Proof.
  intros Ht Hk.
  assert (Hfam : lastAssoc k
            [("primary", VUndefined); ("primaryHover", VUndefined); ("primaryDark", VUndefined)]
            = None).
  { revert Hk. cbn [lastAssoc darkOverrides fst snd].
    destruct (String.eqb_spec "primaryDark" k) as [<-|_]; [discriminate|].
    destruct (String.eqb_spec "primaryHover" k) as [<-|_]; [discriminate|].
    destruct (String.eqb_spec "primary" k) as [<-|_]; [discriminate|].
    reflexivity. }
  destruct (hexToRgb_normal (getField o "primary")) as [[c|] Hp].
  - destruct (Qlt_le_dec (brightness c) (inject_Z 128)) as [Hlt|Hle].
    + rewrite (getDarkModeColors_dark _ _ Hp Hlt) in Ht. apply Normal_inj in Ht; subst t.
      rewrite lookup_overrideAll_None; [apply lookup_overrideAll_Some, Hk|].
      revert Hfam. cbn [lastAssoc fst snd].
      destruct (String.eqb "primaryDark" k); [discriminate|].
      destruct (String.eqb "primaryHover" k); [discriminate|].
      destruct (String.eqb "primary" k); [discriminate|]. reflexivity.
    + rewrite getDarkModeColors_plain in Ht by (right; exists c; split; assumption).
      apply Normal_inj in Ht; subst t. apply lookup_overrideAll_Some, Hk.
  - rewrite getDarkModeColors_plain in Ht by (left; exact Hp).
    apply Normal_inj in Ht; subst t. apply lookup_overrideAll_Some, Hk.
Qed.

(** What [computeThemeVariables] returns on an object: [theme] is the
    working theme, [x] the parse of the input's primary colour. *)
Lemma computeThemeVariables_obj (o theme : object) (isDarkMode : bool) (x : option rgb) :
  (if isDarkMode then getDarkModeColors (RObj o) = Normal theme else theme = o) ->
  hexToRgb (getField o "primary") = Normal x ->
  computeThemeVariables (RObj o) isDarkMode =
  Normal (let variables := withListColors (getField o "listColors") (fixedVariables theme) in
          match x with
          | Some c => overrideAll variables (primaryAlphaEntries c)
          | None => variables
          end).
Proof.
  intros Htheme Hp. unfold computeThemeVariables. cbn [truthyRef negb].
  assert (Hsel : (if isDarkMode then RObj <$> getDarkModeColors (RObj o)
                  else mret (RObj o)) = Normal (RObj theme)).
  { destruct isDarkMode; [rewrite Htheme|subst theme]; reflexivity. }
  rewrite Hsel. cbn [mbind completion_bind]. rewrite readFields_obj.
  cbn [mbind completion_bind getProp].
  assert (Hlist : (if truthy (getField o "listColors") && isArray (getField o "listColors")
                   then callForEach (getField o "listColors")
                          (fun vars color index => <[listColorName index := color]> vars)
                          (overrideAll ∅ (map (fun nf => (nf.1, getField theme nf.2)) variableTable))
                   else mret (overrideAll ∅ (map (fun nf => (nf.1, getField theme nf.2)) variableTable)))
                  = Normal (withListColors (getField o "listColors") (fixedVariables theme))).
  { destruct (getField o "listColors"); cbn [truthy isArray andb];
      rewrite ?andb_false_r; reflexivity. }
  rewrite Hlist. cbn [mbind completion_bind].
  destruct (truthy (getField o "primary")) eqn:Ht.
  - rewrite Hp. cbn [mbind completion_bind]. destruct x; reflexivity.
  - rewrite (hexToRgb_falsy _ Ht) in Hp. apply Normal_inj in Hp. subst x. reflexivity.
Qed.

(** [computeThemeVariables] returns on every object, in both modes. *)
Lemma computeThemeVariables_normal (o : object) (isDarkMode : bool) :
  exists vars, computeThemeVariables (RObj o) isDarkMode = Normal vars.
Proof.
  destruct (hexToRgb_normal (getField o "primary")) as [x Hp].
  destruct isDarkMode.
  - destruct (getDarkModeColors_normal o) as [t Ht].
    eexists. apply (computeThemeVariables_obj o t true x Ht Hp).
  - eexists. apply (computeThemeVariables_obj o o false x eq_refl Hp).
Qed.

End OnObjects.

(** ** Looking up a name in the result *)

Section Lookups.

Lemma withListColors_lookup_other (listColors : value) (vars : object) (k : string) :
  (forall j, k <> listColorName j) ->
  withListColors listColors vars !! k = vars !! k.
Proof.
  intros Hk. destruct listColors; try reflexivity.
  apply forEachFrom_lookup_other. intros j _. apply Hk.
Qed.

(** A name of the object literal is not the name of a list colour. *)
Lemma variableTable_not_listColorName (k : string) (v : value) (theme : object) (j : Z) :
  lastAssoc k (map (fun nf => (nf.1, getField theme nf.2)) variableTable) = Some v ->
  k <> listColorName j.
Proof.
  intros H ->. revert H. unfold listColorName. cbn. discriminate.
Qed.

Lemma fixedVariables_lookup (theme : object) (k : string) :
  fixedVariables theme !! k
  = lastAssoc k (map (fun nf => (nf.1, getField theme nf.2)) variableTable).
Proof.
  unfold fixedVariables. rewrite lookup_overrideAll, lookup_empty.
  destruct (lastAssoc _ _); reflexivity.
Qed.

(** The three ways a name can get its value in the result. *)
Lemma computeThemeVariables_lookup_fixed (o theme vars : object) (isDarkMode : bool)
    (k : string) :
  (if isDarkMode then getDarkModeColors (RObj o) = Normal theme else theme = o) ->
  computeThemeVariables (RObj o) isDarkMode = Normal vars ->
  (forall j, k <> listColorName j) ->
  (forall c, lastAssoc k (primaryAlphaEntries c) = None) ->
  vars !! k = lastAssoc k (map (fun nf => (nf.1, getField theme nf.2)) variableTable).
Proof.
  intros Htheme Hvars Hlist Halpha.
  destruct (hexToRgb_normal (getField o "primary")) as [x Hp].
  rewrite (computeThemeVariables_obj _ _ _ _ Htheme Hp) in Hvars.
  apply Normal_inj in Hvars. subst vars. cbv zeta.
  assert (Hbase : withListColors (getField o "listColors") (fixedVariables theme) !! k
                  = lastAssoc k (map (fun nf => (nf.1, getField theme nf.2)) variableTable)).
  { rewrite withListColors_lookup_other by exact Hlist. apply fixedVariables_lookup. }
  destruct x as [c|]; [|exact Hbase].
  rewrite lookup_overrideAll_None; [exact Hbase|apply Halpha].
Qed.

Lemma computeThemeVariables_lookup_alpha (o vars : object) (isDarkMode : bool)
    (x : option rgb) (k : string) :
  computeThemeVariables (RObj o) isDarkMode = Normal vars ->
  hexToRgb (getField o "primary") = Normal x ->
  (forall j, k <> listColorName j) ->
  (forall theme : object,
     lastAssoc k (map (fun nf => (nf.1, getField theme nf.2)) variableTable) = None) ->
  vars !! k = match x with
              | Some c => lastAssoc k (primaryAlphaEntries c)
              | None => None
              end.
Proof.
  intros Hvars Hp Hlist Hfixed.
  assert (Hth : exists theme : object,
             if isDarkMode then getDarkModeColors (RObj o) = Normal theme else theme = o).
  { destruct isDarkMode; [apply getDarkModeColors_normal|exists o; reflexivity]. }
  destruct Hth as [theme Htheme].
  rewrite (computeThemeVariables_obj _ _ _ _ Htheme Hp) in Hvars.
  apply Normal_inj in Hvars. subst vars. cbv zeta.
  assert (Hbase : withListColors (getField o "listColors") (fixedVariables theme) !! k = None).
  { rewrite withListColors_lookup_other by exact Hlist.
    rewrite fixedVariables_lookup. apply Hfixed. }
  destruct x as [c|]; [|exact Hbase].
  rewrite lookup_overrideAll, Hbase.
  destruct (lastAssoc k (primaryAlphaEntries c)); reflexivity.
Qed.

Lemma computeThemeVariables_lookup_list (o vars : object) (isDarkMode : bool) (n : nat) :
  computeThemeVariables (RObj o) isDarkMode = Normal vars ->
  vars !! listColorName (Z.of_nat n)
  = match getField o "listColors" with
    | VArr l => l !! n
    | _ => None
    end.
Proof.
  intros Hvars.
  destruct (hexToRgb_normal (getField o "primary")) as [x Hp].
  assert (Hth : exists theme : object,
             if isDarkMode then getDarkModeColors (RObj o) = Normal theme else theme = o).
  { destruct isDarkMode; [apply getDarkModeColors_normal|exists o; reflexivity]. }
  destruct Hth as [theme Htheme].
  rewrite (computeThemeVariables_obj _ _ _ _ Htheme Hp) in Hvars.
  apply Normal_inj in Hvars. subst vars. cbv zeta.
  assert (Hfix : fixedVariables theme !! listColorName (Z.of_nat n) = None).
  { rewrite fixedVariables_lookup. reflexivity. }
  assert (Hbase : withListColors (getField o "listColors") (fixedVariables theme)
                    !! listColorName (Z.of_nat n)
                  = match getField o "listColors" with
                    | VArr l => l !! n
                    | _ => None
                    end).
  { destruct (getField o "listColors") as [| | | | |l]; try exact Hfix.
    unfold withListColors. destruct (l !! n) as [v|] eqn:Hn.
    - apply (forEachFrom_lookup l 0 _ n v Hn).
    - rewrite forEachFrom_lookup_other; [exact Hfix|].
      intros j Hj E. apply listColorName_inj in E.
      apply lookup_ge_None in Hn. lia. }
  destruct x as [c|]; [|exact Hbase].
  rewrite lookup_overrideAll_None; [exact Hbase|reflexivity].
Qed.

(** Dark mode on a theme whose primary colour is [#000000]. *)
Lemma getDarkModeColors_blackened (o : object) :
  getField o "primary" = VStr "#000000" ->
  getDarkModeColors (RObj o) =
  Normal (overrideAll (overrideAll o (darkOverrides (getField o "primary")))
    [ ("primary", VStr "rgb(80, 80, 80)");
      ("primaryHover", VStr "rgb(100, 100, 100)");
      ("primaryDark", VStr "rgb(60, 60, 60)") ]).
Proof.
  intros Hprim.
  assert (Hp : hexToRgb (getField o "primary") = Normal (Some (mkRgb 0 0 0)))
    by (rewrite Hprim; reflexivity).
  apply (getDarkModeColors_dark o _ Hp). reflexivity.
Qed.

Lemma computeThemeVariables_primary_blackened (o vars : object) :
  getField o "primary" = VStr "#000000" ->
  computeThemeVariables (RObj o) true = Normal vars ->
  vars !! "--theme-primary" = Some (VStr "rgb(80, 80, 80)")
  /\ vars !! "--theme-primary-hover" = Some (VStr "rgb(100, 100, 100)")
  /\ vars !! "--theme-primary-dark" = Some (VStr "rgb(60, 60, 60)").
Proof.
  intros Hprim Hvars. pose proof (getDarkModeColors_blackened o Hprim) as Hd.
  repeat split;
    (rewrite (computeThemeVariables_lookup_fixed _ _ _ true _ Hd Hvars);
       [|alpha_name|alpha_name];
     cbn [lastAssoc map variableTable fst snd String.eqb Ascii.eqb Bool.eqb];
     unfold getField; erewrite lookup_overrideAll_Some; reflexivity).
Qed.

End Lookups.

(** ** The properties of the specification *)

Section Claims.

(** C4. On an absent theme, [null] or [undefined], and whatever the mode
    flag, [computeThemeVariables] returns normally, with the empty
    mapping. *)
Theorem computeThemeVariables_absent_theme (isDarkMode : bool) :
  computeThemeVariables RNull isDarkMode = Normal ∅
  /\ computeThemeVariables RUndefined isDarkMode = Normal ∅.
Proof. split; reflexivity. Qed.

(** C2. For an object theme and either mode, the RGB and alpha entries
    come from the input theme's own [primary]: when [hexToRgb] gives
    [(r, g, b)] on it, the result has [--theme-primary-rgb = "r, g, b"]
    and [--theme-primary-NN = "rgba(r, g, b, 0.NN)"] for NN = 15, 20, 25,
    40, 60; when it gives [null], none of the six names is in the result.
    In dark mode with primary [#000000] the entries are those of (0, 0, 0)
    although [--theme-primary] is the brightened colour. *)
Theorem computeThemeVariables_primary_alpha (o : object) (isDarkMode : bool) :
  exists vars,
    computeThemeVariables (RObj o) isDarkMode = Normal vars
    /\ (forall c, hexToRgb (getField o "primary") = Normal (Some c) ->
          let rgb := numToString (r c) +:+ ", " +:+ numToString (g c) +:+ ", "
                     +:+ numToString (b c) in
          vars !! "--theme-primary-rgb" = Some (VStr rgb)
          /\ vars !! "--theme-primary-15" = Some (VStr ("rgba(" +:+ rgb +:+ ", 0.15)"))
          /\ vars !! "--theme-primary-20" = Some (VStr ("rgba(" +:+ rgb +:+ ", 0.20)"))
          /\ vars !! "--theme-primary-25" = Some (VStr ("rgba(" +:+ rgb +:+ ", 0.25)"))
          /\ vars !! "--theme-primary-40" = Some (VStr ("rgba(" +:+ rgb +:+ ", 0.40)"))
          /\ vars !! "--theme-primary-60" = Some (VStr ("rgba(" +:+ rgb +:+ ", 0.60)")))
    /\ (hexToRgb (getField o "primary") = Normal None ->
          vars !! "--theme-primary-rgb" = None
          /\ vars !! "--theme-primary-15" = None
          /\ vars !! "--theme-primary-20" = None
          /\ vars !! "--theme-primary-25" = None
          /\ vars !! "--theme-primary-40" = None
          /\ vars !! "--theme-primary-60" = None)
    /\ (getField o "primary" = VStr "#000000" -> isDarkMode = true ->
          vars !! "--theme-primary" = Some (VStr "rgb(80, 80, 80)")
          /\ vars !! "--theme-primary-rgb" = Some (VStr "0, 0, 0")
          /\ vars !! "--theme-primary-15" = Some (VStr "rgba(0, 0, 0, 0.15)")).
Proof.
  destruct (computeThemeVariables_normal o isDarkMode) as [vars Hvars].
  exists vars. split; [exact Hvars|]. split; [|split].
  - intros c Hp rgb. subst rgb.
    repeat split;
      (rewrite (computeThemeVariables_lookup_alpha _ _ _ _ _ Hvars Hp);
       [reflexivity | alpha_name | alpha_name]).
  - intros Hp.
    repeat split;
      (rewrite (computeThemeVariables_lookup_alpha _ _ _ _ _ Hvars Hp);
       [reflexivity | alpha_name | alpha_name]).
  - intros Hprim ->.
    assert (Hp : hexToRgb (getField o "primary") = Normal (Some (mkRgb 0 0 0)))
      by (rewrite Hprim; reflexivity).
    split; [|split].
    + apply (computeThemeVariables_primary_blackened o vars Hprim Hvars).
    + rewrite (computeThemeVariables_lookup_alpha _ _ _ _ _ Hvars Hp);
        [reflexivity | alpha_name | alpha_name].
    + rewrite (computeThemeVariables_lookup_alpha _ _ _ _ _ Hvars Hp);
        [reflexivity | alpha_name | alpha_name].
Qed.

Lemma computeThemeVariables_primary_alpha_witness :
  exists vars,
    computeThemeVariables (RObj black) true = Normal vars
    /\ vars !! "--theme-primary-rgb" = Some (VStr "0, 0, 0")
    /\ vars !! "--theme-primary-60" = Some (VStr "rgba(0, 0, 0, 0.60)").
Proof.
  destruct (computeThemeVariables_primary_alpha black true) as (vars & Hv & Hsome & _ & _).
  exists vars. split; [exact Hv|].
  destruct (Hsome (mkRgb 0 0 0) eq_refl) as (H1 & _ & _ & _ & _ & H6).
  split; [exact H1 | exact H6].
Defined.

(** C9. On an input that is not a string ([null] and [undefined]
    included) [hexToRgb] returns [null] and does not throw, and it throws
    on no input at all; ["not-a-color"], [""], [null] and ["#12345"] give
    [null]; and when the primary colour does not parse,
    [computeThemeVariables] still returns: the six derived entries are
    left out and every entry of the object literal is there. *)
Theorem hexToRgb_invalid_no_throw :
  (forall v, (forall s, v <> VStr s) -> hexToRgb v = Normal None)
  /\ (forall v, exists x, hexToRgb v = Normal x)
  /\ hexToRgb (VStr "not-a-color") = Normal None
  /\ hexToRgb (VStr "") = Normal None
  /\ hexToRgb VNull = Normal None
  /\ hexToRgb VUndefined = Normal None
  /\ hexToRgb (VStr "#12345") = Normal None
  /\ (forall (o : object) (isDarkMode : bool),
        hexToRgb (getField o "primary") = Normal None ->
        exists vars,
          computeThemeVariables (RObj o) isDarkMode = Normal vars
          /\ vars !! "--theme-primary-rgb" = None
          /\ vars !! "--theme-primary-15" = None
          /\ vars !! "--theme-primary-20" = None
          /\ vars !! "--theme-primary-25" = None
          /\ vars !! "--theme-primary-40" = None
          /\ vars !! "--theme-primary-60" = None
          /\ Forall (fun nf => is_Some (vars !! nf.1)) variableTable).
Proof.
  split; [|split; [exact hexToRgb_normal|]].
  { intros v Hv. apply hexToRgb_nonstring.
    destruct v; try reflexivity. exfalso. exact (Hv s eq_refl). }
  do 5 (split; [reflexivity|]).
  intros o isDarkMode Hp.
  destruct (computeThemeVariables_normal o isDarkMode) as [vars Hvars].
  exists vars. split; [exact Hvars|].
  do 6 (split; [rewrite (computeThemeVariables_lookup_alpha _ _ _ _ _ Hvars Hp);
                [reflexivity | alpha_name | alpha_name]|]).
  assert (Hth : exists theme : object,
             if isDarkMode then getDarkModeColors (RObj o) = Normal theme else theme = o).
  { destruct isDarkMode; [apply getDarkModeColors_normal|exists o; reflexivity]. }
  destruct Hth as [theme Htheme].
  unfold variableTable.
  repeat (apply Forall_cons; split;
          [rewrite (computeThemeVariables_lookup_fixed _ _ _ _ _ Htheme Hvars);
           [eexists; reflexivity | alpha_name | alpha_name]|]).
  constructor.
Qed.

Lemma hexToRgb_invalid_no_throw_witness :
  hexToRgb (VNum 7) = Normal None
  /\ exists vars,
       computeThemeVariables (RObj {[ "primary" := VStr "not-a-color" ]}) false = Normal vars
       /\ vars !! "--theme-primary-rgb" = None.
Proof.
  destruct hexToRgb_invalid_no_throw as (Hnon & _ & _ & _ & _ & _ & _ & Hskip).
  split.
  - apply Hnon. intros s. discriminate.
  - assert (Hp : hexToRgb (getField {[ "primary" := VStr "not-a-color" ]} "primary")
                 = Normal None) by (vm_compute; reflexivity).
    destruct (Hskip {[ "primary" := VStr "not-a-color" ]} false Hp)
      as (vars & Hv & Hrgb & _).
    exists vars. split; [exact Hv | exact Hrgb].
Defined.

(** C5. When the input theme has an array [listColors], in light and in
    dark mode, the element at 0-based position [i] is the value of
    [--theme-list-color-{i+1}], as it is: in order, duplicates and
    elements of any shape included, and there is no such entry past the
    end of the array.  The array is the input theme's, also in dark
    mode. *)
Theorem computeThemeVariables_listColors (o : object) (l : list value)
    (isDarkMode : bool) :
  getField o "listColors" = VArr l ->
  exists vars,
    computeThemeVariables (RObj o) isDarkMode = Normal vars
    /\ (forall (i : nat) (v : value),
          l !! i = Some v ->
          vars !! ("--theme-list-color-" +:+ numToString (Z.of_nat i + 1)) = Some v)
    /\ (forall i : nat,
          (length l <= i)%nat ->
          vars !! ("--theme-list-color-" +:+ numToString (Z.of_nat i + 1)) = None)
    /\ (l = [VStr "#111111"; VStr "#222222"] ->
          vars !! "--theme-list-color-1" = Some (VStr "#111111")
          /\ vars !! "--theme-list-color-2" = Some (VStr "#222222")).
Proof.
  intros Hl.
  destruct (computeThemeVariables_normal o isDarkMode) as [vars Hvars].
  exists vars. split; [exact Hvars|].
  pose proof (fun n => computeThemeVariables_lookup_list o vars isDarkMode n Hvars) as Hlk.
  rewrite Hl in Hlk. split; [|split].
  - intros i v Hi. specialize (Hlk i). rewrite Hi in Hlk. exact Hlk.
  - intros i Hi. specialize (Hlk i).
    rewrite (proj2 (lookup_ge_None l i) Hi) in Hlk. exact Hlk.
  - intros ->. split; [exact (Hlk 0%nat) | exact (Hlk 1%nat)].
Qed.

Lemma computeThemeVariables_listColors_witness :
  exists vars,
    computeThemeVariables
      (RObj {[ "listColors" := VArr [VStr "#111111"; VStr "#111111"; VNum 3] ]}) true
    = Normal vars
    /\ vars !! "--theme-list-color-2" = Some (VStr "#111111")
    /\ vars !! "--theme-list-color-3" = Some (VNum 3)
    /\ vars !! "--theme-list-color-4" = None.
Proof.
  assert (Hl : getField {[ "listColors" := VArr [VStr "#111111"; VStr "#111111"; VNum 3] ]}
                 "listColors"
               = VArr [VStr "#111111"; VStr "#111111"; VNum 3]) by (vm_compute; reflexivity).
  destruct (computeThemeVariables_listColors _ _ true Hl)
    as (vars & Hv & Hin & Hout & _).
  exists vars. split; [exact Hv|]. split; [|split].
  - exact (Hin 1%nat (VStr "#111111") eq_refl).
  - exact (Hin 2%nat (VNum 3) eq_refl).
  - apply (Hout 3%nat). simpl. lia.
Defined.

(** C10. [getDarkModeColors] always sets [blockquoteBorder] and
    [hrColor] to the input theme's [primary], so in dark mode
    [--theme-blockquote-border] and [--theme-hr-color] are the input's
    [primary]: whatever the input had in these two fields, [undefined]
    when the input has no [primary], and the original string, not the
    [rgb(...)] one, when the primary colour is brightened. *)
Theorem getDarkModeColors_carries_primary (o : object) :
  exists t vars,
    getDarkModeColors (RObj o) = Normal t
    /\ computeThemeVariables (RObj o) true = Normal vars
    /\ t !! "blockquoteBorder" = Some (getField o "primary")
    /\ t !! "hrColor" = Some (getField o "primary")
    /\ vars !! "--theme-blockquote-border" = Some (getField o "primary")
    /\ vars !! "--theme-hr-color" = Some (getField o "primary")
    /\ (o !! "primary" = None ->
          vars !! "--theme-blockquote-border" = Some VUndefined
          /\ vars !! "--theme-hr-color" = Some VUndefined)
    /\ (getField o "primary" = VStr "#000000" ->
          vars !! "--theme-primary" = Some (VStr "rgb(80, 80, 80)")
          /\ vars !! "--theme-blockquote-border" = Some (VStr "#000000")
          /\ vars !! "--theme-hr-color" = Some (VStr "#000000")).
Proof.
  destruct (getDarkModeColors_normal o) as [t Ht].
  destruct (computeThemeVariables_normal o true) as [vars Hvars].
  exists t, vars. split; [exact Ht|]. split; [exact Hvars|].
  assert (Hbq : t !! "blockquoteBorder" = Some (getField o "primary"))
    by (apply (getDarkModeColors_fixed o t _ _ Ht); reflexivity).
  assert (Hhr : t !! "hrColor" = Some (getField o "primary"))
    by (apply (getDarkModeColors_fixed o t _ _ Ht); reflexivity).
  assert (Vbq : vars !! "--theme-blockquote-border" = Some (getField o "primary")).
  { rewrite (computeThemeVariables_lookup_fixed _ _ _ true _ Ht Hvars);
      [|alpha_name|alpha_name].
    cbn [lastAssoc map variableTable fst snd String.eqb Ascii.eqb Bool.eqb].
    unfold getField at 1. rewrite Hbq. reflexivity. }
  assert (Vhr : vars !! "--theme-hr-color" = Some (getField o "primary")).
  { rewrite (computeThemeVariables_lookup_fixed _ _ _ true _ Ht Hvars);
      [|alpha_name|alpha_name].
    cbn [lastAssoc map variableTable fst snd String.eqb Ascii.eqb Bool.eqb].
    unfold getField at 1. rewrite Hhr. reflexivity. }
  do 4 (split; [assumption|]). split.
  - intros Hnone. rewrite Vbq, Vhr. unfold getField. rewrite Hnone. split; reflexivity.
  - intros Hprim. rewrite Vbq, Vhr, Hprim. split; [|split; reflexivity].
    destruct (computeThemeVariables_primary_blackened o vars Hprim Hvars) as [H _].
    exact H.
Qed.

Lemma getDarkModeColors_carries_primary_witness :
  exists vars,
    computeThemeVariables (RObj blackWithBorders) true = Normal vars
    /\ vars !! "--theme-blockquote-border" = Some (VStr "#000000")
    /\ vars !! "--theme-hr-color" = Some (VStr "#000000")
    /\ vars !! "--theme-primary" = Some (VStr "rgb(80, 80, 80)").
Proof.
  destruct (getDarkModeColors_carries_primary blackWithBorders)
    as (t & vars & _ & Hv & _ & _ & _ & _ & _ & Hblack).
  assert (Hprim : getField blackWithBorders "primary" = VStr "#000000")
    by (vm_compute; reflexivity).
  destruct (Hblack Hprim) as (Hp & Hbq & Hhr).
  exists vars. split; [exact Hv|]. split; [exact Hbq|]. split; [exact Hhr | exact Hp].
Defined.

(** C6, as the code has it.  For every input theme, [getDarkModeColors]
    sets the fourteen palette fields to these literals; the three
    [rgba(...)] values are written with a space after each comma. *)
Theorem getDarkModeColors_palette (o : object) :
  exists t,
    getDarkModeColors (RObj o) = Normal t
    /\ t !! "bgPrimary" = Some (VStr "#1a1a1a")
    /\ t !! "bgSecondary" = Some (VStr "#2d2d2d")
    /\ t !! "bgTertiary" = Some (VStr "#3a3a3a")
    /\ t !! "textPrimary" = Some (VStr "#e6e6e6")
    /\ t !! "textSecondary" = Some (VStr "#b3b3b3")
    /\ t !! "textTertiary" = Some (VStr "#888888")
    /\ t !! "borderLight" = Some (VStr "#404040")
    /\ t !! "borderMedium" = Some (VStr "#555555")
    /\ t !! "inlineCodeBg" = Some (VStr "rgba(255, 255, 255, 0.1)")
    /\ t !! "inlineCodeText" = Some (VStr "#f8f8f2")
    /\ t !! "inlineCodeBorder" = Some (VStr "rgba(255, 255, 255, 0.15)")
    /\ t !! "blockquoteBackground" = Some (VStr "rgba(255, 255, 255, 0.05)")
    /\ t !! "tableHeaderBg" = Some (VStr "#2d2d2d")
    /\ t !! "tableBorder" = Some (VStr "#404040").
Proof.
  destruct (getDarkModeColors_normal o) as [t Ht].
  exists t. split; [exact Ht|].
  repeat split; (apply (getDarkModeColors_fixed o t _ _ Ht); reflexivity).
Qed.

(** C6 as stated fails: on the empty theme the three [rgba(...)] fields
    are not the strings without spaces. *)
Lemma getDarkModeColors_palette_counterexample :
  exists t,
    getDarkModeColors (RObj ∅) = Normal t
    /\ t !! "inlineCodeBg" <> Some (VStr "rgba(255,255,255,0.1)")
    /\ t !! "inlineCodeBorder" <> Some (VStr "rgba(255,255,255,0.15)")
    /\ t !! "blockquoteBackground" <> Some (VStr "rgba(255,255,255,0.05)").
Proof.
  eexists. split; [reflexivity|].
  repeat split; vm_compute; discriminate.
Qed.

(** C1. When the input's [primary] parses to [(r, g, b)] and the
    brightness [(299 r + 587 g + 114 b) / 1000] is below 128,
    [getDarkModeColors] sets [primary] to the components raised by 80 and
    capped at 255, [primaryHover] to those raised by 20 more and capped at
    255, and [primaryDark] to those lowered by 20 under the same upper cap
    [min(255, x - 20)], with no lower bound applied.  When the brightness
    is 128 or more, or [primary] is absent or does not parse, the three
    fields are those of the input.  Primary [#000000] gives
    [rgb(80, 80, 80)], [rgb(100, 100, 100)] and [rgb(60, 60, 60)]. *)
Theorem getDarkModeColors_brightens (o : object) :
  exists t,
    getDarkModeColors (RObj o) = Normal t
    /\ (forall c,
          hexToRgb (getField o "primary") = Normal (Some c) ->
          (brightness c < inject_Z 128)%Q ->
          let lighterR := Z.min 255 (r c + 80) in
          let lighterG := Z.min 255 (g c + 80) in
          let lighterB := Z.min 255 (b c + 80) in
          t !! "primary"
            = Some (VStr ("rgb(" +:+ numToString lighterR +:+ ", "
                          +:+ numToString lighterG +:+ ", "
                          +:+ numToString lighterB +:+ ")"))
          /\ t !! "primaryHover"
            = Some (VStr ("rgb(" +:+ numToString (Z.min 255 (lighterR + 20)) +:+ ", "
                          +:+ numToString (Z.min 255 (lighterG + 20)) +:+ ", "
                          +:+ numToString (Z.min 255 (lighterB + 20)) +:+ ")"))
          /\ t !! "primaryDark"
            = Some (VStr ("rgb(" +:+ numToString (Z.min 255 (lighterR - 20)) +:+ ", "
                          +:+ numToString (Z.min 255 (lighterG - 20)) +:+ ", "
                          +:+ numToString (Z.min 255 (lighterB - 20)) +:+ ")")))
    /\ (forall c,
          hexToRgb (getField o "primary") = Normal (Some c) ->
          (inject_Z 128 <= brightness c)%Q ->
          t !! "primary" = o !! "primary"
          /\ t !! "primaryHover" = o !! "primaryHover"
          /\ t !! "primaryDark" = o !! "primaryDark")
    /\ (hexToRgb (getField o "primary") = Normal None ->
          t !! "primary" = o !! "primary"
          /\ t !! "primaryHover" = o !! "primaryHover"
          /\ t !! "primaryDark" = o !! "primaryDark")
    /\ (o !! "primary" = None ->
          t !! "primary" = None
          /\ t !! "primaryHover" = o !! "primaryHover"
          /\ t !! "primaryDark" = o !! "primaryDark")
    /\ (getField o "primary" = VStr "#000000" ->
          t !! "primary" = Some (VStr "rgb(80, 80, 80)")
          /\ t !! "primaryHover" = Some (VStr "rgb(100, 100, 100)")
          /\ t !! "primaryDark" = Some (VStr "rgb(60, 60, 60)")).
Proof.
  destruct (getDarkModeColors_normal o) as [t Ht].
  exists t. split; [exact Ht|].
  assert (Hplain : t = overrideAll o (darkOverrides (getField o "primary")) ->
            t !! "primary" = o !! "primary"
            /\ t !! "primaryHover" = o !! "primaryHover"
            /\ t !! "primaryDark" = o !! "primaryDark").
  { intros ->. repeat split; apply lookup_overrideAll_None; reflexivity. }
  split; [|split; [|split; [|split]]].
  - intros c Hp Hb lighterR lighterG lighterB. subst lighterR lighterG lighterB.
    rewrite (getDarkModeColors_dark _ _ Hp Hb) in Ht. apply Normal_inj in Ht. subst t.
    repeat split; apply lookup_overrideAll_Some; reflexivity.
  - intros c Hp Hb. apply Hplain.
    rewrite getDarkModeColors_plain in Ht by (right; exists c; split; assumption).
    apply Normal_inj in Ht. congruence.
  - intros Hp. apply Hplain.
    rewrite getDarkModeColors_plain in Ht by (left; exact Hp).
    apply Normal_inj in Ht. congruence.
  - intros Hnone.
    assert (Hp : hexToRgb (getField o "primary") = Normal None)
      by (unfold getField; rewrite Hnone; reflexivity).
    rewrite getDarkModeColors_plain in Ht by (left; exact Hp).
    apply Normal_inj in Ht. destruct (Hplain (eq_sym Ht)) as (H1 & H2 & H3).
    rewrite <- Hnone. repeat split; assumption.
  - intros Hprim. rewrite (getDarkModeColors_blackened _ Hprim) in Ht.
    apply Normal_inj in Ht. subst t.
    repeat split; apply lookup_overrideAll_Some; reflexivity.
Qed.

Lemma getDarkModeColors_brightens_witness :
  (exists t,
     getDarkModeColors (RObj black) = Normal t
     /\ t !! "primary" = Some (VStr "rgb(80, 80, 80)")
     /\ t !! "primaryHover" = Some (VStr "rgb(100, 100, 100)")
     /\ t !! "primaryDark" = Some (VStr "rgb(60, 60, 60)"))
  /\ (exists t,
        getDarkModeColors (RObj white) = Normal t
        /\ t !! "primary" = Some (VStr "#FFFFFF")
        /\ t !! "primaryHover" = None).
Proof.
  split.
  - destruct (getDarkModeColors_brightens black) as (t & Ht & Hdark & _).
    exists t. split; [exact Ht|].
    assert (Hp : hexToRgb (getField black "primary") = Normal (Some (mkRgb 0 0 0)))
      by (vm_compute; reflexivity).
    assert (Hb : (brightness (mkRgb 0 0 0) < inject_Z 128)%Q) by reflexivity.
    exact (Hdark (mkRgb 0 0 0) Hp Hb).
  - destruct (getDarkModeColors_brightens white) as (t & Ht & _ & Hlight & _).
    exists t. split; [exact Ht|].
    assert (Hp : hexToRgb (getField white "primary") = Normal (Some (mkRgb 255 255 255)))
      by (vm_compute; reflexivity).
    assert (Hb : (inject_Z 128 <= brightness (mkRgb 255 255 255))%Q)
      by (vm_compute; discriminate).
    destruct (Hlight (mkRgb 255 255 255) Hp Hb) as (H1 & H2 & _).
    split; [exact H1 | exact H2].
Defined.

(** C7. A string of three hex digits, with or without a [#] in front,
    parses to the triple of its doubled form: each component is 17 times
    the digit's value, which does not depend on the case of the digit.
    ["#0AB"] and ["#00AABB"] both give (0, 170, 187). *)
Theorem hexToRgb_shorthand (c1 c2 c3 : ascii) :
  isHexClass c1 = true -> isHexClass c2 = true -> isHexClass c3 = true ->
  let short := String c1 (String c2 (String c3 EmptyString)) in
  let long :=
    String c1 (String c1 (String c2 (String c2 (String c3 (String c3 EmptyString))))) in
  (exists d1 d2 d3,
     hexDigit c1 = Some d1 /\ hexDigit c2 = Some d2 /\ hexDigit c3 = Some d3
     /\ hexToRgb (VStr long) = Normal (Some (mkRgb (17 * d1) (17 * d2) (17 * d3))))
  /\ hexToRgb (VStr short) = hexToRgb (VStr long)
  /\ hexToRgb (VStr ("#" +:+ short)) = hexToRgb (VStr ("#" +:+ long))
  /\ hexToRgb (VStr ("#" +:+ short)) = hexToRgb (VStr long)
  /\ hexToRgb (VStr "#0AB") = Normal (Some (mkRgb 0 170 187))
  /\ hexToRgb (VStr "#00AABB") = Normal (Some (mkRgb 0 170 187))
  /\ hexToRgb (VStr "#0ab") = Normal (Some (mkRgb 0 170 187))
  /\ hexToRgb (VStr "0aB") = Normal (Some (mkRgb 0 170 187)).
Proof.
  intros H1 H2 H3 short long.
  assert (Hlong : replaceFirst "#" "" long = long).
  { subst long. cbn [replaceFirst].
    rewrite !(isHexClass_not_hash _ H1), !(isHexClass_not_hash _ H2),
      !(isHexClass_not_hash _ H3). reflexivity. }
  assert (Hshort : replaceFirst "#" "" short = short).
  { subst short. cbn [replaceFirst].
    rewrite (isHexClass_not_hash _ H1), (isHexClass_not_hash _ H2),
      (isHexClass_not_hash _ H3). reflexivity. }
  assert (Hexp : expandShorthand short = long).
  { subst short long. unfold expandShorthand. cbn [matchShorthand].
    rewrite H1, H2, H3. reflexivity. }
  assert (Hexp' : expandShorthand long = long) by reflexivity.
  assert (Hhs : replaceFirst "#" "" ("#" +:+ short) = short) by reflexivity.
  assert (Hhl : replaceFirst "#" "" ("#" +:+ long) = long) by reflexivity.
  split; [|split; [|split; [|split]]].
  - destruct (isHexClass_hexDigit _ H1) as (d1 & E1 & _).
    destruct (isHexClass_hexDigit _ H2) as (d2 & E2 & _).
    destruct (isHexClass_hexDigit _ H3) as (d3 & E3 & _).
    exists d1, d2, d3. do 3 (split; [assumption|]).
    rewrite hexToRgb_str, Hlong, Hexp'. subst long. cbn [matchFull].
    rewrite H1, H2, H3. cbn [andb].
    rewrite (parseInt16_pair _ _ _ _ E1 E1), (parseInt16_pair _ _ _ _ E2 E2),
      (parseInt16_pair _ _ _ _ E3 E3).
    do 3 f_equal; lia.
  - rewrite !hexToRgb_str, Hshort, Hlong, Hexp, Hexp'. reflexivity.
  - rewrite !hexToRgb_str, Hhs, Hhl, Hexp, Hexp'. reflexivity.
  - rewrite !hexToRgb_str, Hhs, Hlong, Hexp, Hexp'. reflexivity.
  - repeat split; reflexivity.
Qed.

Lemma hexToRgb_shorthand_witness :
  hexToRgb (VStr "f0c") = hexToRgb (VStr "ff00cc")
  /\ hexToRgb (VStr "#f0c") = hexToRgb (VStr "ff00cc").
Proof.
  destruct (hexToRgb_shorthand "f" "0" "c" eq_refl eq_refl eq_refl)
    as (_ & Hsl & _ & Hhl & _).
  split; [exact Hsl | exact Hhl].
Defined.

(** C8. When [hexToRgb] accepts a string, the three components are
    between 0 and 255, and the triple written as [#rrggbb] parses to the
    same triple. *)
Theorem hexToRgb_roundtrip (s : string) (c : rgb) :
  hexToRgb (VStr s) = Normal (Some c) ->
  0 <= r c <= 255 /\ 0 <= g c <= 255 /\ 0 <= b c <= 255
  /\ hexToRgb (VStr (rgbToHex c)) = Normal (Some c).
Proof.
  intros H.
  destruct (hexToRgb_Some_digits _ _ H)
    as (c1 & c2 & c3 & c4 & c5 & c6 & d1 & d2 & d3 & d4 & d5 & d6 & _ &
        _ & _ & _ & _ & _ & _ & B1 & B2 & B3 & B4 & B5 & B6 & ->).
  cbn [r g b].
  assert (Hr : 0 <= 16 * d1 + d2 <= 255) by lia.
  assert (Hg : 0 <= 16 * d3 + d4 <= 255) by lia.
  assert (Hb : 0 <= 16 * d5 + d6 <= 255) by lia.
  do 3 (split; [assumption|]).
  apply hexToRgb_rgbToHex; assumption.
Qed.

Lemma hexToRgb_roundtrip_witness :
  rgbToHex (mkRgb 0 168 107) = "#00a86b"
  /\ hexToRgb (VStr "#00a86b") = Normal (Some (mkRgb 0 168 107)).
Proof.
  destruct (hexToRgb_roundtrip "#00A86B" (mkRgb 0 168 107) eq_refl) as (_ & _ & _ & H).
  split; [reflexivity | exact H].
Defined.

(** C3, as the code has it.  [hexToRgb] removes the first [#] of the
    string, wherever it stands, and no other; it then accepts exactly the
    strings whose expansion is six hex digits, that is, those whose
    remainder is three or six hex digits of either case.  Every other
    string gives [null]: a wrong length, a character that is not a hex
    digit, a colour name, an [rgb()] or [rgba()] string, a second [#]. *)
Theorem hexToRgb_accepts (s : string) :
  let body := replaceFirst "#" "" s in
  let full := expandShorthand body in
  ((exists c, hexToRgb (VStr s) = Normal (Some c))
     <-> allHex full = true /\ String.length full = 6%nat)
  /\ ((exists c, hexToRgb (VStr s) = Normal (Some c))
     <-> allHex body = true /\ (String.length body = 3 \/ String.length body = 6)%nat)
  /\ (hexToRgb (VStr s) = Normal None
     <-> ~ (allHex body = true /\ (String.length body = 3 \/ String.length body = 6)%nat))
  /\ replaceFirst "#" "" ("#" +:+ s) = s
  /\ hexToRgb (VStr "red") = Normal None
  /\ hexToRgb (VStr "rgb(0, 0, 0)") = Normal None
  /\ hexToRgb (VStr "rgba(0, 0, 0, 0.5)") = Normal None
  /\ hexToRgb (VStr "#1234567") = Normal None
  /\ hexToRgb (VStr "#12345g") = Normal None
  /\ hexToRgb (VStr "##123456") = Normal None
  /\ hexToRgb (VStr "#12#3456") = Normal None
  /\ hexToRgb (VStr "12#3456") = Normal (Some (mkRgb 18 52 86))
  /\ hexToRgb (VStr "123456#") = Normal (Some (mkRgb 18 52 86)).
Proof.
  intros body full. subst body full.
  split; [|split; [|split]].
  - rewrite hexToRgb_Some_iff. apply matchFull_allHex.
  - rewrite hexToRgb_Some_iff. apply expandShorthand_accepts.
  - rewrite hexToRgb_None_iff, <- expandShorthand_accepts.
    destruct (matchFull _) as [m|]; split.
    + discriminate.
    + intros Hn. exfalso. apply Hn. eexists. reflexivity.
    + intros _ [x Hx]. discriminate.
    + reflexivity.
  - repeat split; reflexivity.
Qed.

(** C3 as stated fails: the string ["12#3456"] has no leading [#] to
    strip and has a [#] in third position, which is not a hex digit, yet
    [hexToRgb] accepts it. *)
Lemma hexToRgb_inner_hash_counterexample :
  stripLeadingHash "12#3456" = "12#3456"
  /\ allHex (stripLeadingHash "12#3456") = false
  /\ hexToRgb (VStr "12#3456") = Normal (Some (mkRgb 18 52 86))
  /\ hexToRgb (VStr "12#3456") <> Normal None.
Proof.
  repeat split; try reflexivity. discriminate.
Qed.

Lemma hexToRgb_accepts_witness :
  (exists c, hexToRgb (VStr "1#23456") = Normal (Some c))
  /\ hexToRgb (VStr "#12#456") = Normal None.
Proof.
  split.
  - destruct (hexToRgb_accepts "1#23456") as (_ & Hiff & _).
    apply Hiff. split; [reflexivity | right; reflexivity].
  - destruct (hexToRgb_accepts "#12#456") as (_ & _ & Hiff & _).
    apply Hiff. intros [Hall _]. discriminate Hall.
Defined.

End Claims.

(** ** Further properties of [hexToRgb] *)

Section HexToRgbMore.

Lemma replaceFirst_mapString (f : ascii -> ascii) (s : string) :
  (forall c, Ascii.eqb (f c) "#" = Ascii.eqb c "#") ->
  replaceFirst "#" "" (mapString f s) = mapString f (replaceFirst "#" "" s).
Proof.
  intros Hf. induction s as [|c s IH]; [reflexivity|].
  cbn [mapString replaceFirst]. rewrite Hf.
  destruct (Ascii.eqb c "#"); [reflexivity|].
  cbn [mapString]. rewrite IH. reflexivity.
Qed.

Lemma expandShorthand_mapString (f : ascii -> ascii) (s : string) :
  (forall c, isHexClass (f c) = isHexClass c) ->
  expandShorthand (mapString f s) = mapString f (expandShorthand s).
Proof.
  intros Hf. unfold expandShorthand.
  destruct s as [|a1 [|a2 [|a3 [|a4 s]]]]; try reflexivity.
  cbn [mapString matchShorthand]. rewrite !Hf.
  destruct (isHexClass a1 && isHexClass a2 && isHexClass a3); reflexivity.
Qed.

Lemma parseHexDigits_mapString (f : ascii -> ascii) (s : string) (acc : Z) :
  (forall c, hexDigit (f c) = hexDigit c) ->
  parseHexDigits acc (mapString f s) = parseHexDigits acc s.
Proof.
  intros Hf. revert acc. induction s as [|c s IH]; intros acc; [reflexivity|].
  cbn [mapString parseHexDigits]. rewrite Hf.
  destruct (hexDigit c); [apply IH|reflexivity].
Qed.

(** A renaming of characters that keeps [#], the class of hex digits and
    the value of each digit does not change what is parsed. *)
Lemma hexToRgb_mapString (f : ascii -> ascii) (s : string) :
  (forall c, Ascii.eqb (f c) "#" = Ascii.eqb c "#") ->
  (forall c, isHexClass (f c) = isHexClass c) ->
  (forall c, hexDigit (f c) = hexDigit c) ->
  hexToRgb (VStr (mapString f s)) = hexToRgb (VStr s).
Proof.
  intros Hh Hc Hd. rewrite !hexToRgb_str.
  rewrite (replaceFirst_mapString f s Hh), (expandShorthand_mapString f _ Hc).
  set (full := expandShorthand (replaceFirst "#" "" s)).
  destruct full as [|c1 [|c2 [|c3 [|c4 [|c5 [|c6 [|c7 full]]]]]]]; try reflexivity.
  cbn [mapString matchFull]. rewrite !Hc.
  destruct (isHexClass c1 && isHexClass c2 && isHexClass c3 && isHexClass c4
            && isHexClass c5 && isHexClass c6); [|reflexivity].
  unfold parseInt16.
  change (String (f c1) (String (f c2) EmptyString))
    with (mapString f (String c1 (String c2 EmptyString))).
  change (String (f c3) (String (f c4) EmptyString))
    with (mapString f (String c3 (String c4 EmptyString))).
  change (String (f c5) (String (f c6) EmptyString))
    with (mapString f (String c5 (String c6 EmptyString))).
  rewrite !(parseHexDigits_mapString f _ 0 Hd). reflexivity.
Qed.

Lemma upcase_facts (c : ascii) :
  Ascii.eqb (upcase c) "#" = Ascii.eqb c "#"
  /\ isHexClass (upcase c) = isHexClass c
  /\ hexDigit (upcase c) = hexDigit c.
Proof.
  destruct c as [[] [] [] [] [] [] [] []]; vm_compute; repeat split.
Qed.

Lemma downcase_facts (c : ascii) :
  Ascii.eqb (downcase c) "#" = Ascii.eqb c "#"
  /\ isHexClass (downcase c) = isHexClass c
  /\ hexDigit (downcase c) = hexDigit c.
Proof.
  destruct c as [[] [] [] [] [] [] [] []]; vm_compute; repeat split.
Qed.

(** X1. The case of the letters does not matter: a string, the string in
    upper case and the string in lower case get the same result from
    [hexToRgb], an RGB triple or [null]. *)
Theorem hexToRgb_case_insensitive (s : string) :
  hexToRgb (VStr (mapString upcase s)) = hexToRgb (VStr s)
  /\ hexToRgb (VStr (mapString downcase s)) = hexToRgb (VStr s).
Proof.
  split.
  - apply hexToRgb_mapString; intros c; apply (upcase_facts c).
  - apply hexToRgb_mapString; intros c; apply (downcase_facts c).
Qed.

Lemma replaceFirst_noHash (s : string) :
  noHash s = true -> replaceFirst "#" "" s = s.
Proof.
  induction s as [|c s IH]; [reflexivity|].
  cbn [noHash replaceFirst]. destruct (Ascii.eqb c "#"); [discriminate|].
  cbn [negb andb]. intros H. rewrite (IH H). reflexivity.
Qed.

Lemma replaceFirst_insert_hash (s1 s2 : string) :
  noHash s1 = true -> replaceFirst "#" "" (s1 +:+ "#" +:+ s2) = s1 +:+ s2.
Proof.
  induction s1 as [|c s1 IH]; [reflexivity|].
  cbn [noHash]. destruct (Ascii.eqb c "#") eqn:E; [discriminate|].
  cbn [negb andb]. intros H.
  change (String c s1 +:+ "#" +:+ s2) with (String c (s1 +:+ "#" +:+ s2)).
  cbn [replaceFirst]. rewrite E, (IH H). reflexivity.
Qed.

Lemma noHash_app (s1 s2 : string) :
  noHash s1 = true -> noHash s2 = true -> noHash (s1 +:+ s2) = true.
Proof.
  intros H1 H2. induction s1 as [|c s1 IH]; [exact H2|].
  change (String c s1 +:+ s2) with (String c (s1 +:+ s2)).
  cbn [noHash] in *. destruct (Ascii.eqb c "#"); [discriminate|].
  cbn [negb andb] in *. apply IH, H1.
Qed.

(** X2. Where the single [#] stands does not matter: a string without
    [#] gets the same result from [hexToRgb] with a [#] put in at any
    position, the front included. *)
Theorem hexToRgb_hash_anywhere (s1 s2 : string) :
  noHash s1 = true -> noHash s2 = true ->
  hexToRgb (VStr (s1 +:+ "#" +:+ s2)) = hexToRgb (VStr (s1 +:+ s2)).
Proof.
  intros H1 H2. rewrite !hexToRgb_str.
  rewrite (replaceFirst_insert_hash s1 s2 H1).
  rewrite (replaceFirst_noHash _ (noHash_app _ _ H1 H2)). reflexivity.
Qed.

Lemma hexToRgb_hash_anywhere_witness :
  hexToRgb (VStr "00A#86B") = hexToRgb (VStr "00A86B")
  /\ hexToRgb (VStr "#00A86B") = hexToRgb (VStr "00A86B").
Proof.
  split.
  - exact (hexToRgb_hash_anywhere "00A" "86B" eq_refl eq_refl).
  - exact (hexToRgb_hash_anywhere "" "00A86B" eq_refl eq_refl).
Defined.

(** A successful parse comes from a string and gives three bytes. *)
Lemma hexToRgb_Some_bounds (v : value) (c : rgb) :
  hexToRgb v = Normal (Some c) ->
  0 <= r c <= 255 /\ 0 <= g c <= 255 /\ 0 <= b c <= 255.
Proof.
  intros H. destruct v as [| | | |s|];
    try (rewrite hexToRgb_nonstring in H by reflexivity; discriminate).
  destruct (hexToRgb_Some_digits _ _ H)
    as (c1 & c2 & c3 & c4 & c5 & c6 & d1 & d2 & d3 & d4 & d5 & d6 & _ &
        _ & _ & _ & _ & _ & _ & B1 & B2 & B3 & B4 & B5 & B6 & ->).
  cbn [r g b]. lia.
Qed.

(** The text [rgb(x, y, z)] is not a hex colour. *)
Lemma hexToRgb_rgbString (x y z : Z) :
  hexToRgb (VStr (rgbString x y z)) = Normal None.
Proof.
  rewrite hexToRgb_str. unfold rgbString.
  set (rest := "gb(" +:+ numToString x +:+ ", " +:+ numToString y +:+ ", "
               +:+ numToString z +:+ ")").
  change ("rgb(" +:+ numToString x +:+ ", " +:+ numToString y +:+ ", "
          +:+ numToString z +:+ ")") with (String "r" rest).
  cbn [replaceFirst Ascii.eqb Bool.eqb].
  generalize (replaceFirst "#" "" rest). intros body.
  assert (Hs : expandShorthand (String "r" body) = String "r" body).
  { unfold expandShorthand. destruct body as [|a1 [|a2 [|a3 body]]]; reflexivity. }
  rewrite Hs.
  destruct body as [|a1 [|a2 [|a3 [|a4 [|a5 [|a6 body]]]]]]; reflexivity.
Qed.

End HexToRgbMore.

(** ** Further properties of [getDarkModeColors] *)

Section DarkMore.

Lemma lastAssoc_is_Some (k : string) (kvs : list (string * value)) :
  is_Some (lastAssoc k kvs) <-> k ∈ map fst kvs.
Proof.
  induction kvs as [|[k' v] rest IH].
  - split; [intros [x Hx]; discriminate|intros H; inversion H].
  - cbn [lastAssoc map fst snd]. rewrite elem_of_cons, <- IH.
    destruct (lastAssoc k rest) as [w|].
    + split; [intros _; right; eexists; reflexivity|intros _; eexists; reflexivity].
    + destruct (String.eqb_spec k' k) as [->|Hne].
      * split; [intros _; left; reflexivity|intros _; eexists; reflexivity].
      * split; [intros [x Hx]; discriminate|].
        intros [->|[x Hx]]; [contradiction|discriminate].
Qed.

Lemma lastAssoc_None (k : string) (kvs : list (string * value)) :
  k ∉ map fst kvs -> lastAssoc k kvs = None.
Proof.
  intros H. destruct (lastAssoc k kvs) as [w|] eqn:E; [|reflexivity].
  exfalso. apply H, lastAssoc_is_Some. eexists. exact E.
Qed.

Lemma darkOverrides_names (p : value) : map fst (darkOverrides p) = darkFieldNames.
Proof. reflexivity. Qed.

(** The value the object literal gives a name other than the two that
    carry the primary colour does not depend on the primary colour. *)
Lemma lastAssoc_darkOverrides_indep (k : string) (p p' : value) :
  k <> "blockquoteBorder" -> k <> "hrColor" ->
  lastAssoc k (darkOverrides p) = lastAssoc k (darkOverrides p').
Proof.
  intros Hbq Hhr. unfold darkOverrides. cbn [lastAssoc fst snd].
  destruct (String.eqb_spec "hrColor" k) as [E|_]; [congruence|].
  destruct (String.eqb_spec "blockquoteBorder" k) as [E|_]; [congruence|].
  reflexivity.
Qed.

(** Every result of [getDarkModeColors] has one of two shapes. *)
Lemma getDarkModeColors_cases (o t : object) :
  getDarkModeColors (RObj o) = Normal t ->
  (t = overrideAll o (darkOverrides (getField o "primary"))
   /\ (hexToRgb (getField o "primary") = Normal None
       \/ exists c, hexToRgb (getField o "primary") = Normal (Some c)
                    /\ (inject_Z 128 <= brightness c)%Q))
  \/ (exists c,
        hexToRgb (getField o "primary") = Normal (Some c)
        /\ (brightness c < inject_Z 128)%Q
        /\ t = overrideAll (overrideAll o (darkOverrides (getField o "primary")))
            [ ("primary",
                VStr (rgbString (Z.min 255 (r c + 80)) (Z.min 255 (g c + 80))
                                (Z.min 255 (b c + 80))));
              ("primaryHover",
                VStr (rgbString (Z.min 255 (Z.min 255 (r c + 80) + 20))
                                (Z.min 255 (Z.min 255 (g c + 80) + 20))
                                (Z.min 255 (Z.min 255 (b c + 80) + 20))));
              ("primaryDark",
                VStr (rgbString (Z.min 255 (Z.min 255 (r c + 80) - 20))
                                (Z.min 255 (Z.min 255 (g c + 80) - 20))
                                (Z.min 255 (Z.min 255 (b c + 80) - 20)))) ]).
Proof.
  intros Ht.
  destruct (hexToRgb_normal (getField o "primary")) as [[c|] Hp].
  - destruct (Qlt_le_dec (brightness c) (inject_Z 128)) as [Hlt|Hle].
    + right. exists c. split; [exact Hp|]. split; [exact Hlt|].
      rewrite (getDarkModeColors_dark _ _ Hp Hlt) in Ht.
      apply Normal_inj in Ht. congruence.
    + left. assert (Hc : hexToRgb (getField o "primary") = Normal None
                         \/ exists c, hexToRgb (getField o "primary") = Normal (Some c)
                                      /\ (inject_Z 128 <= brightness c)%Q)
        by (right; exists c; split; assumption).
      split; [|exact Hc]. rewrite (getDarkModeColors_plain _ Hc) in Ht.
      apply Normal_inj in Ht. congruence.
  - left. assert (Hc : hexToRgb (getField o "primary") = Normal None
                       \/ exists c, hexToRgb (getField o "primary") = Normal (Some c)
                                    /\ (inject_Z 128 <= brightness c)%Q)
      by (left; exact Hp).
    split; [|exact Hc]. rewrite (getDarkModeColors_plain _ Hc) in Ht.
    apply Normal_inj in Ht. congruence.
Qed.

Lemma lastAssoc_family_None (k : string) (x y z : value) :
  k ∉ primaryFamily ->
  lastAssoc k [("primary", x); ("primaryHover", y); ("primaryDark", z)] = None.
Proof.
  intros H. apply lastAssoc_None. exact H.
Qed.

(** X3. [getDarkModeColors] changes no field besides the sixteen its
    object literal sets and the three of the primary family: every other
    field of the input, [primaryLight], [listColors] and any field the
    module does not know included, is in the result as it was, and a
    field the input lacks is not added. *)
Theorem getDarkModeColors_keeps_other_fields (o : object) (k : string) :
  k ∉ darkFieldNames -> k ∉ primaryFamily ->
  exists t, getDarkModeColors (RObj o) = Normal t /\ t !! k = o !! k.
Proof.
  intros Hd Hf. destruct (getDarkModeColors_normal o) as [t Ht].
  exists t. split; [exact Ht|].
  assert (Hnone : lastAssoc k (darkOverrides (getField o "primary")) = None)
    by (apply lastAssoc_None; rewrite darkOverrides_names; exact Hd).
  destruct (getDarkModeColors_cases o t Ht) as [[-> _]|(c & _ & _ & ->)].
  - apply lookup_overrideAll_None, Hnone.
  - rewrite lookup_overrideAll_None by (apply lastAssoc_family_None, Hf).
    apply lookup_overrideAll_None, Hnone.
Qed.

Lemma getDarkModeColors_keeps_other_fields_witness :
  exists t,
    getDarkModeColors (RObj navyFull) = Normal t
    /\ t !! "primaryLight" = Some (VStr "#ccccff")
    /\ t !! "listColors" = Some (VArr [VStr "#111111"; VStr "#222222"]).
Proof.
  assert (H1 : "primaryLight" ∉ darkFieldNames) by compute_done.
  assert (H2 : "primaryLight" ∉ primaryFamily) by compute_done.
  assert (H3 : "listColors" ∉ darkFieldNames) by compute_done.
  assert (H4 : "listColors" ∉ primaryFamily) by compute_done.
  destruct (getDarkModeColors_keeps_other_fields navyFull "primaryLight" H1 H2)
    as (t & Ht & Hl).
  destruct (getDarkModeColors_keeps_other_fields navyFull "listColors" H3 H4)
    as (t' & Ht' & Hl').
  exists t. split; [exact Ht|]. split.
  - rewrite Hl. vm_compute. reflexivity.
  - assert (E : t = t') by (rewrite Ht in Ht'; apply Normal_inj in Ht'; exact Ht').
    rewrite E, Hl'. vm_compute. reflexivity.
Defined.

End DarkMore.

Section DarkTwice.

(** X4. When [getDarkModeColors] brightens, the three new values are
    [rgb(...)] texts whose components are bytes: those of [primary] are
    between 80 and 255 and not below the input's, those of [primaryHover]
    between 100 and 255 and not below those of [primary], and those of
    [primaryDark] are those of [primary] less 20, so between 60 and 235
    and never negative. *)
Theorem getDarkModeColors_brightened_bounds (o : object) (c : rgb) :
  hexToRgb (getField o "primary") = Normal (Some c) ->
  (brightness c < inject_Z 128)%Q ->
  exists t pr pg pb hr hg hb dr dg db,
    getDarkModeColors (RObj o) = Normal t
    /\ t !! "primary" = Some (VStr (rgbString pr pg pb))
    /\ t !! "primaryHover" = Some (VStr (rgbString hr hg hb))
    /\ t !! "primaryDark" = Some (VStr (rgbString dr dg db))
    /\ (80 <= pr <= 255 /\ 80 <= pg <= 255 /\ 80 <= pb <= 255)
    /\ (r c <= pr /\ g c <= pg /\ b c <= pb)
    /\ (100 <= hr <= 255 /\ 100 <= hg <= 255 /\ 100 <= hb <= 255)
    /\ (pr <= hr /\ pg <= hg /\ pb <= hb)
    /\ (dr = pr - 20 /\ dg = pg - 20 /\ db = pb - 20)
    /\ (60 <= dr <= 235 /\ 60 <= dg <= 235 /\ 60 <= db <= 235).
Proof.
  intros Hp Hb. destruct (hexToRgb_Some_bounds _ _ Hp) as (Br & Bg & Bb).
  eexists. exists (Z.min 255 (r c + 80)), (Z.min 255 (g c + 80)), (Z.min 255 (b c + 80)).
  exists (Z.min 255 (Z.min 255 (r c + 80) + 20)), (Z.min 255 (Z.min 255 (g c + 80) + 20)),
    (Z.min 255 (Z.min 255 (b c + 80) + 20)).
  exists (Z.min 255 (Z.min 255 (r c + 80) - 20)), (Z.min 255 (Z.min 255 (g c + 80) - 20)),
    (Z.min 255 (Z.min 255 (b c + 80) - 20)).
  split; [apply (getDarkModeColors_dark _ _ Hp Hb)|].
  do 3 (split; [apply lookup_overrideAll_Some; reflexivity|]).
  repeat split; lia.
Qed.

Lemma getDarkModeColors_brightened_bounds_witness :
  exists t dr dg db,
    getDarkModeColors (RObj navy) = Normal t
    /\ t !! "primaryDark" = Some (VStr (rgbString dr dg db))
    /\ 60 <= dr <= 235 /\ 60 <= dg <= 235 /\ 60 <= db <= 235.
Proof.
  assert (Hp : hexToRgb (getField navy "primary") = Normal (Some (mkRgb 0 0 128)))
    by (vm_compute; reflexivity).
  assert (Hb : (brightness (mkRgb 0 0 128) < inject_Z 128)%Q) by reflexivity.
  destruct (getDarkModeColors_brightened_bounds navy (mkRgb 0 0 128) Hp Hb)
    as (t & pr & pg & pb & hr & hg & hb & dr & dg & db & Ht & _ & _ & Hd & _ & _ & _ & _
        & _ & Br & Bg & Bb).
  exists t, dr, dg, db. split; [exact Ht|]. split; [exact Hd|].
  split; [exact Br|]. split; [exact Bg | exact Bb].
Defined.

(** The primary colour of a result of [getDarkModeColors] is never one
    that a second call would brighten. *)
Lemma getDarkModeColors_result_plain (o t : object) :
  getDarkModeColors (RObj o) = Normal t ->
  getDarkModeColors (RObj t)
  = Normal (overrideAll t (darkOverrides (getField t "primary"))).
Proof.
  intros Ht. apply getDarkModeColors_plain.
  destruct (getDarkModeColors_cases o t Ht) as [[-> Hc]|(c & _ & _ & ->)].
  - assert (E : getField (overrideAll o (darkOverrides (getField o "primary"))) "primary"
                = getField o "primary").
    { unfold getField at 1. rewrite lookup_overrideAll_None by reflexivity. reflexivity. }
    rewrite E. exact Hc.
  - left. unfold getField at 1.
    erewrite lookup_overrideAll_Some by reflexivity.
    apply hexToRgb_rgbString.
Qed.

(** X5. A second application of [getDarkModeColors] brightens nothing:
    applied to its own result it returns that result again, but for
    [blockquoteBorder] and [hrColor], which become the primary colour of
    the first result. *)
Theorem getDarkModeColors_twice (o : object) :
  exists t t',
    getDarkModeColors (RObj o) = Normal t
    /\ getDarkModeColors (RObj t) = Normal t'
    /\ (forall k, k <> "blockquoteBorder" -> k <> "hrColor" -> t' !! k = t !! k)
    /\ t' !! "blockquoteBorder" = Some (getField t "primary")
    /\ t' !! "hrColor" = Some (getField t "primary").
Proof.
  destruct (getDarkModeColors_normal o) as [t Ht].
  exists t. eexists. split; [exact Ht|].
  split; [apply (getDarkModeColors_result_plain o t Ht)|].
  split; [|split; apply lookup_overrideAll_Some; reflexivity].
  intros k Hbq Hhr. rewrite lookup_overrideAll.
  destruct (lastAssoc k (darkOverrides (getField t "primary"))) as [v|] eqn:E;
    [|reflexivity].
  cbn [from_option]. symmetry. apply (getDarkModeColors_fixed o t k v Ht).
  rewrite (lastAssoc_darkOverrides_indep k _ (getField t "primary") Hbq Hhr). exact E.
Qed.

Lemma getDarkModeColors_twice_witness :
  exists t t',
    getDarkModeColors (RObj navy) = Normal t
    /\ getDarkModeColors (RObj t) = Normal t'
    /\ t' !! "primary" = t !! "primary"
    /\ t' !! "primaryDark" = t !! "primaryDark"
    /\ t' !! "bgPrimary" = t !! "bgPrimary".
Proof.
  destruct (getDarkModeColors_twice navy) as (t & t' & Ht & Ht' & Hsame & _).
  exists t, t'. split; [exact Ht|]. split; [exact Ht'|].
  split; [|split]; apply Hsame; discriminate.
Defined.

(** X6. [computeThemeVariables] throws on no theme argument, [null],
    [undefined] or an object, in neither mode, although
    [getDarkModeColors] on its own throws a [TypeError] on [null] and on
    [undefined]: the guard at the head of [computeThemeVariables] is what
    keeps the dark mode from failing there. *)
Theorem computeThemeVariables_never_throws :
  (forall (colorTheme : objref) (isDarkMode : bool),
     exists vars, computeThemeVariables colorTheme isDarkMode = Normal vars)
  /\ getDarkModeColors RNull = Throw TypeError
  /\ getDarkModeColors RUndefined = Throw TypeError.
Proof.
  split; [|split; reflexivity].
  intros [| |o] isDarkMode.
  - exists ∅. reflexivity.
  - exists ∅. reflexivity.
  - apply computeThemeVariables_normal.
Qed.

End DarkTwice.

(** ** Further properties of [computeThemeVariables] *)

Section VariablesMore.

Lemma working_theme (o : object) (isDarkMode : bool) :
  exists theme : object,
    if isDarkMode then getDarkModeColors (RObj o) = Normal theme else theme = o.
Proof.
  destruct isDarkMode; [apply getDarkModeColors_normal|exists o; reflexivity].
Qed.

(** X7. Each of the twenty names of the object literal has, in the
    result, the value of its field in the working theme: the input itself
    in light mode, the result of [getDarkModeColors] in dark mode.  A
    field the theme lacks gives an entry whose value is [undefined]; the
    later steps overwrite none of the twenty. *)
Theorem computeThemeVariables_fixed_entries (o : object) (isDarkMode : bool) :
  exists theme vars,
    (if isDarkMode then getDarkModeColors (RObj o) = Normal theme else theme = o)
    /\ computeThemeVariables (RObj o) isDarkMode = Normal vars
    /\ Forall (fun nf => vars !! nf.1 = Some (getField theme nf.2)) variableTable.
Proof.
  destruct (working_theme o isDarkMode) as [theme Htheme].
  destruct (computeThemeVariables_normal o isDarkMode) as [vars Hvars].
  exists theme, vars. split; [exact Htheme|]. split; [exact Hvars|].
  unfold variableTable.
  repeat (apply Forall_cons; split;
          [rewrite (computeThemeVariables_lookup_fixed _ _ _ _ _ Htheme Hvars);
           [reflexivity | alpha_name | alpha_name]|]).
  constructor.
Qed.

(** X8. In dark mode fourteen entries of the result do not depend on the
    input theme at all: the backgrounds, texts, borders, inline code,
    block quote background and table colours are the fixed dark ones. *)
Theorem computeThemeVariables_dark_palette (o : object) :
  exists vars,
    computeThemeVariables (RObj o) true = Normal vars
    /\ vars !! "--theme-bg-primary" = Some (VStr "#1a1a1a")
    /\ vars !! "--theme-bg-secondary" = Some (VStr "#2d2d2d")
    /\ vars !! "--theme-bg-tertiary" = Some (VStr "#3a3a3a")
    /\ vars !! "--theme-text-primary" = Some (VStr "#e6e6e6")
    /\ vars !! "--theme-text-secondary" = Some (VStr "#b3b3b3")
    /\ vars !! "--theme-text-tertiary" = Some (VStr "#888888")
    /\ vars !! "--theme-border-light" = Some (VStr "#404040")
    /\ vars !! "--theme-border-medium" = Some (VStr "#555555")
    /\ vars !! "--theme-inline-code-bg" = Some (VStr "rgba(255, 255, 255, 0.1)")
    /\ vars !! "--theme-inline-code-text" = Some (VStr "#f8f8f2")
    /\ vars !! "--theme-inline-code-border" = Some (VStr "rgba(255, 255, 255, 0.15)")
    /\ vars !! "--theme-blockquote-bg" = Some (VStr "rgba(255, 255, 255, 0.05)")
    /\ vars !! "--theme-table-header-bg" = Some (VStr "#2d2d2d")
    /\ vars !! "--theme-table-border" = Some (VStr "#404040").
Proof.
  destruct (getDarkModeColors_normal o) as [t Ht].
  destruct (computeThemeVariables_normal o true) as [vars Hvars].
  exists vars. split; [exact Hvars|].
  repeat split;
    (rewrite (computeThemeVariables_lookup_fixed _ _ _ true _ Ht Hvars);
       [|alpha_name|alpha_name];
     cbn [lastAssoc map variableTable fst snd String.eqb Ascii.eqb Bool.eqb];
     unfold getField;
     erewrite (getDarkModeColors_fixed o t _ _ Ht) by reflexivity;
     reflexivity).
Qed.

(** X9. When [listColors] is anything but an array, a string or [null]
    for instance, or is missing, the call still returns and the result
    has no list colour entry. *)
Theorem computeThemeVariables_no_list (o : object) (isDarkMode : bool) :
  isArray (getField o "listColors") = false ->
  exists vars,
    computeThemeVariables (RObj o) isDarkMode = Normal vars
    /\ forall n : nat,
         vars !! ("--theme-list-color-" +:+ numToString (Z.of_nat n + 1)) = None.
Proof.
  intros Harr. destruct (computeThemeVariables_normal o isDarkMode) as [vars Hvars].
  exists vars. split; [exact Hvars|]. intros n.
  pose proof (computeThemeVariables_lookup_list o vars isDarkMode n Hvars) as H.
  destruct (getField o "listColors"); try exact H. discriminate Harr.
Qed.

Lemma computeThemeVariables_no_list_witness :
  exists vars,
    computeThemeVariables (RObj oddList) false = Normal vars
    /\ vars !! "--theme-list-color-1" = None
    /\ vars !! "--theme-list-color-2" = None.
Proof.
  assert (Harr : isArray (getField oddList "listColors") = false)
    by (vm_compute; reflexivity).
  destruct (computeThemeVariables_no_list oddList false Harr) as (vars & Hv & Hn).
  exists vars. split; [exact Hv|]. split; [exact (Hn 0%nat) | exact (Hn 1%nat)].
Defined.

End VariablesMore.

Section VariablesDomain.

(** The names present after the [forEach]: those present before, and
    the names of the positions of the array. *)
Lemma forEachFrom_is_Some (l : list value) (index : Z) (st : object) (k : string) :
  is_Some (forEachFrom (fun vars color i => <[listColorName i := color]> vars)
             l index st !! k)
  <-> is_Some (st !! k)
      \/ exists n : nat, (n < length l)%nat /\ k = listColorName (index + Z.of_nat n).
Proof.
  revert index st. induction l as [|x l IH]; intros index st.
  - cbn [forEachFrom length]. split; [intros H; left; exact H|].
    intros [H|(n & Hn & _)]; [exact H|lia].
  - cbn [forEachFrom length]. rewrite IH, lookup_insert_is_Some. split.
    + intros [[E|[_ H]]|(n & Hn & ->)].
      * right. exists 0%nat. split; [lia|]. rewrite <- E. f_equal. lia.
      * left. exact H.
      * right. exists (S n). split; [lia|]. f_equal. lia.
    + intros [H|(n & Hn & ->)].
      * destruct (decide (listColorName index = k)) as [E|Hne].
        -- left. left. exact E.
        -- left. right. split; assumption.
      * destruct n as [|n].
        -- left. left. f_equal. lia.
        -- right. exists n. split; [lia|]. f_equal. lia.
Qed.

(** What the [forEach] stores under a name depends on what was under
    that name only. *)
Lemma forEachFrom_lookup_ext (l : list value) (index : Z) (st1 st2 : object)
    (k : string) :
  st1 !! k = st2 !! k ->
  forEachFrom (fun vars color i => <[listColorName i := color]> vars) l index st1 !! k
  = forEachFrom (fun vars color i => <[listColorName i := color]> vars) l index st2 !! k.
Proof.
  revert index st1 st2. induction l as [|x l IH]; intros index st1 st2 H; [exact H|].
  cbn [forEachFrom]. apply IH.
  destruct (decide (listColorName index = k)) as [E|Hne].
  - rewrite E, !lookup_insert_eq. reflexivity.
  - rewrite !lookup_insert_ne by exact Hne. exact H.
Qed.

Lemma fixedVariables_is_Some (theme : object) (k : string) :
  is_Some (fixedVariables theme !! k) <-> k ∈ fixedNames.
Proof.
  rewrite fixedVariables_lookup, lastAssoc_is_Some. reflexivity.
Qed.

(** X10. The names of the result are the twenty names of the object
    literal, one name [--theme-list-color-{n+1}] for each position [n] of
    an array [listColors] of the input, and the six names derived from
    the primary colour when it parses; there is no other entry. *)
Theorem computeThemeVariables_domain (o vars : object) (isDarkMode : bool) (k : string) :
  computeThemeVariables (RObj o) isDarkMode = Normal vars ->
  (is_Some (vars !! k)
   <-> k ∈ fixedNames
       \/ (exists (l : list value) (n : nat),
             getField o "listColors" = VArr l /\ (n < length l)%nat
             /\ k = "--theme-list-color-" +:+ numToString (Z.of_nat n + 1))
       \/ (k ∈ alphaNames
           /\ exists c, hexToRgb (getField o "primary") = Normal (Some c))).
Proof.
  intros Hvars.
  destruct (working_theme o isDarkMode) as [theme Htheme].
  destruct (hexToRgb_normal (getField o "primary")) as [x Hp].
  rewrite (computeThemeVariables_obj _ _ _ _ Htheme Hp) in Hvars.
  apply Normal_inj in Hvars. subst vars. cbv zeta.
  assert (Hbase : is_Some (withListColors (getField o "listColors") (fixedVariables theme) !! k)
            <-> k ∈ fixedNames
                \/ (exists (l : list value) (n : nat),
                      getField o "listColors" = VArr l /\ (n < length l)%nat
                      /\ k = "--theme-list-color-" +:+ numToString (Z.of_nat n + 1))).
  { destruct (getField o "listColors") as [| | | | |l] eqn:El;
      try (cbn [withListColors]; rewrite fixedVariables_is_Some; split;
           [intros H; left; exact H|intros [H|(l' & m & E & _)]; [exact H|discriminate E]]).
    unfold withListColors. rewrite forEachFrom_is_Some, fixedVariables_is_Some.
    split.
    - intros [H|(n & Hn & ->)]; [left; exact H|].
      right. exists l, n. split; [reflexivity|]. split; [exact Hn|reflexivity].
    - intros [H|(l' & n & E & Hn & ->)]; [left; exact H|].
      injection E as <-. right. exists n. split; [exact Hn|reflexivity]. }
  destruct x as [c|].
  - rewrite lookup_overrideAll.
    assert (Ha : is_Some (lastAssoc k (primaryAlphaEntries c)) <-> k ∈ alphaNames)
      by (rewrite lastAssoc_is_Some; reflexivity).
    destruct (lastAssoc k (primaryAlphaEntries c)) as [w|] eqn:E; cbn [from_option].
    + split; [|intros _; eexists; reflexivity].
      intros _. right. right. split; [apply Ha; eexists; reflexivity|].
      exists c. exact Hp.
    + rewrite Hbase. split.
      * intros [H|H]; [left; exact H|right; left; exact H].
      * intros [H|[H|[H _]]]; [left; exact H|right; exact H|].
        apply Ha in H. destruct H as [w Hw]. discriminate Hw.
  - rewrite Hbase. split.
    + intros [H|H]; [left; exact H|right; left; exact H].
    + intros [H|[H|[_ [c Hc]]]]; [left; exact H|right; exact H|].
      rewrite Hp in Hc. discriminate Hc.
Qed.

Lemma computeThemeVariables_domain_witness :
  exists vars,
    computeThemeVariables (RObj navyFull) true = Normal vars
    /\ is_Some (vars !! "--theme-list-color-2")
    /\ is_Some (vars !! "--theme-primary-40")
    /\ ~ is_Some (vars !! "--theme-primary-light-2").
Proof.
  destruct (computeThemeVariables_normal navyFull true) as [vars Hv].
  exists vars. split; [exact Hv|].
  assert (Hl : getField navyFull "listColors" = VArr [VStr "#111111"; VStr "#222222"])
    by (vm_compute; reflexivity).
  assert (Hp : hexToRgb (getField navyFull "primary") = Normal (Some (mkRgb 0 0 128)))
    by (vm_compute; reflexivity).
  split; [|split].
  - apply (computeThemeVariables_domain navyFull vars true _ Hv).
    right. left. exists [VStr "#111111"; VStr "#222222"], 1%nat.
    split; [exact Hl|]. split; [simpl; lia|reflexivity].
  - apply (computeThemeVariables_domain navyFull vars true _ Hv).
    right. right. split; [compute_done|]. exists (mkRgb 0 0 128). exact Hp.
  - intros H. apply (computeThemeVariables_domain navyFull vars true _ Hv) in H.
    destruct H as [H|[(l & n & _ & _ & Hk)|[H _]]].
    + assert (Hn : "--theme-primary-light-2" ∉ fixedNames) by compute_done.
      exact (Hn H).
    + discriminate Hk.
    + assert (Hn : "--theme-primary-light-2" ∉ alphaNames) by compute_done.
      exact (Hn H).
Defined.

(** X11. Outside the twenty names of the object literal the mode makes
    no difference: the list colour entries and the entries derived from
    the primary colour are the same in light and in dark mode, and a name
    absent in one mode is absent in the other. *)
Theorem computeThemeVariables_mode_independent (o : object) (k : string) :
  k ∉ fixedNames ->
  exists light dark,
    computeThemeVariables (RObj o) false = Normal light
    /\ computeThemeVariables (RObj o) true = Normal dark
    /\ light !! k = dark !! k.
Proof.
  intros Hk.
  destruct (getDarkModeColors_normal o) as [t Ht].
  destruct (hexToRgb_normal (getField o "primary")) as [x Hp].
  eexists. eexists.
  split; [apply (computeThemeVariables_obj o o false x eq_refl Hp)|].
  split; [apply (computeThemeVariables_obj o t true x Ht Hp)|]. cbv zeta.
  assert (Hfix : forall theme : object, fixedVariables theme !! k = None).
  { intros theme. destruct (fixedVariables theme !! k) as [w|] eqn:E; [|reflexivity].
    exfalso. apply Hk, (fixedVariables_is_Some theme). eexists. exact E. }
  assert (Hbase : withListColors (getField o "listColors") (fixedVariables o) !! k
                  = withListColors (getField o "listColors") (fixedVariables t) !! k).
  { destruct (getField o "listColors"); cbn [withListColors];
      try (rewrite !Hfix; reflexivity).
    apply forEachFrom_lookup_ext. rewrite !Hfix. reflexivity. }
  destruct x as [c|]; [|exact Hbase].
  rewrite !lookup_overrideAll, Hbase. reflexivity.
Qed.

Lemma computeThemeVariables_mode_independent_witness :
  exists light dark,
    computeThemeVariables (RObj navyFull) false = Normal light
    /\ computeThemeVariables (RObj navyFull) true = Normal dark
    /\ light !! "--theme-primary-rgb" = dark !! "--theme-primary-rgb".
Proof.
  assert (Hk : "--theme-primary-rgb" ∉ fixedNames) by compute_done.
  exact (computeThemeVariables_mode_independent navyFull "--theme-primary-rgb" Hk).
Defined.

End VariablesDomain.

Section VariablesSize.

Lemma overrideAll_size (o : object) (kvs : list (string * value)) :
  NoDup (map fst kvs) ->
  (forall k, k ∈ map fst kvs -> o !! k = None) ->
  size (overrideAll o kvs) = (size o + length kvs)%nat.
Proof.
  revert o. induction kvs as [|[k v] rest IH]; intros o Hnd Hfresh.
  - cbn. lia.
  - cbn [map fst] in Hnd, Hfresh. apply NoDup_cons in Hnd as [Hk Hnd].
    change (overrideAll o ((k, v) :: rest)) with (overrideAll (<[k:=v]> o) rest).
    rewrite IH.
    + rewrite map_size_insert_None by (apply Hfresh; left).
      cbn [length]. lia.
    + exact Hnd.
    + intros k' Hk'. rewrite lookup_insert_ne.
      * apply Hfresh. right. exact Hk'.
      * intros ->. contradiction.
Qed.

Lemma forEachFrom_size (l : list value) (index : Z) (st : object) :
  (forall n : nat, (n < length l)%nat -> st !! listColorName (index + Z.of_nat n) = None) ->
  size (forEachFrom (fun vars color i => <[listColorName i := color]> vars) l index st)
  = (size st + length l)%nat.
Proof.
  revert index st. induction l as [|x l IH]; intros index st Hfresh.
  - cbn. lia.
  - cbn [forEachFrom length]. rewrite IH.
    + rewrite map_size_insert_None; [lia|].
      replace index with (index + Z.of_nat 0) by lia.
      apply Hfresh. cbn [length]. lia.
    + intros n Hn. rewrite lookup_insert_ne.
      * replace (index + 1 + Z.of_nat n) with (index + Z.of_nat (S n)) by lia.
        apply Hfresh. cbn [length]. lia.
      * intros E. apply listColorName_inj in E. lia.
Qed.

Lemma alphaNames_fresh (listColors : value) (theme : object) (k : string) :
  k ∈ alphaNames ->
  withListColors listColors (fixedVariables theme) !! k = None.
Proof.
  intros H. unfold alphaNames in H.
  repeat (apply elem_of_cons in H as [->|H];
          [rewrite withListColors_lookup_other by not_list_name;
           rewrite fixedVariables_lookup; reflexivity|]).
  inversion H.
Qed.

(** X12. The result has exactly twenty entries, one more for each
    element of an array [listColors], and six more when the primary
    colour parses: no two of the names coincide, whatever the length of
    the array. *)
Theorem computeThemeVariables_size (o vars : object) (isDarkMode : bool)
    (x : option rgb) :
  computeThemeVariables (RObj o) isDarkMode = Normal vars ->
  hexToRgb (getField o "primary") = Normal x ->
  size vars
  = (20
     + match getField o "listColors" with VArr l => length l | _ => 0 end
     + match x with Some _ => 6 | None => 0 end)%nat.
Proof.
  intros Hvars Hp.
  destruct (working_theme o isDarkMode) as [theme Htheme].
  rewrite (computeThemeVariables_obj _ _ _ _ Htheme Hp) in Hvars.
  apply Normal_inj in Hvars. subst vars. cbv zeta.
  assert (Hfixed : size (fixedVariables theme) = 20%nat).
  { unfold fixedVariables. rewrite overrideAll_size.
    - rewrite map_size_empty. reflexivity.
    - change (NoDup fixedNames). compute_done.
    - intros k _. apply lookup_empty. }
  assert (Hbase : size (withListColors (getField o "listColors") (fixedVariables theme))
                  = (20 + match getField o "listColors" with
                          | VArr l => length l
                          | _ => 0
                          end)%nat).
  { destruct (getField o "listColors") as [| | | | |l]; cbn [withListColors];
      try (rewrite Hfixed; lia).
    rewrite forEachFrom_size, Hfixed; [reflexivity|].
    intros n _. rewrite fixedVariables_lookup. reflexivity. }
  destruct x as [c|]; [|rewrite Hbase; lia].
  rewrite overrideAll_size, Hbase; [reflexivity| |].
  - change (NoDup alphaNames). compute_done.
  - intros k Hk. apply alphaNames_fresh. exact Hk.
Qed.

Lemma computeThemeVariables_size_witness :
  exists vars,
    computeThemeVariables (RObj navyFull) true = Normal vars /\ size vars = 28%nat.
Proof.
  destruct (computeThemeVariables_normal navyFull true) as [vars Hv].
  exists vars. split; [exact Hv|].
  assert (Hp : hexToRgb (getField navyFull "primary") = Normal (Some (mkRgb 0 0 128)))
    by (vm_compute; reflexivity).
  rewrite (computeThemeVariables_size navyFull vars true _ Hv Hp).
  vm_compute. reflexivity.
Defined.

End VariablesSize.

Section Canonical.

Lemma hexDigit_downcase (c : ascii) (d : Z) :
  hexDigit c = Some d -> downcase c = hexChar d.
Proof.
  destruct c as [[] [] [] [] [] [] [] []]; vm_compute; intros H;
    try discriminate H; injection H as <-; reflexivity.
Qed.

Lemma hex2_digits (d1 d2 : Z) :
  0 <= d1 < 16 -> 0 <= d2 < 16 ->
  hex2 (16 * d1 + d2) = String (hexChar d1) (String (hexChar d2) EmptyString).
Proof.
  intros H1 H2. unfold hex2.
  replace ((16 * d1 + d2) / 16) with d1 by (apply Z.div_unique with d2; lia).
  replace ((16 * d1 + d2) mod 16) with d2 by (apply Z.mod_unique with d1; lia).
  reflexivity.
Qed.

(** X13. Writing a parsed triple back as [#rrggbb] gives the input in
    canonical form: its first [#] removed, three digits doubled to six,
    letters in lower case, and a [#] in front.  So [hexToRgb] loses
    nothing of an accepted string but the case of its letters, the
    shorthand and the place of the [#]. *)
Theorem rgbToHex_hexToRgb (s : string) (c : rgb) :
  hexToRgb (VStr s) = Normal (Some c) ->
  rgbToHex c = "#" +:+ mapString downcase (expandShorthand (replaceFirst "#" "" s)).
Proof.
  intros H.
  destruct (hexToRgb_Some_digits _ _ H)
    as (c1 & c2 & c3 & c4 & c5 & c6 & d1 & d2 & d3 & d4 & d5 & d6 & -> &
        E1 & E2 & E3 & E4 & E5 & E6 & B1 & B2 & B3 & B4 & B5 & B6 & ->).
  unfold rgbToHex. cbn [r g b mapString].
  rewrite (hex2_digits _ _ B1 B2), (hex2_digits _ _ B3 B4), (hex2_digits _ _ B5 B6).
  rewrite (hexDigit_downcase _ _ E1), (hexDigit_downcase _ _ E2),
    (hexDigit_downcase _ _ E3), (hexDigit_downcase _ _ E4),
    (hexDigit_downcase _ _ E5), (hexDigit_downcase _ _ E6).
  reflexivity.
Qed.

Lemma rgbToHex_hexToRgb_witness :
  rgbToHex (mkRgb 0 170 187) = "#00aabb".
Proof.
  exact (rgbToHex_hexToRgb "0A#B" (mkRgb 0 170 187) eq_refl).
Defined.

End Canonical.

Section BrightPrimary.

(** X14. A primary colour that is not brightened is not touched by the
    dark mode: when it does not parse, or its brightness is 128 or more,
    [--theme-primary], [--theme-primary-hover] and [--theme-primary-dark]
    are the same in dark and in light mode; [--theme-primary-light] is
    the same in both modes in every case. *)
Theorem computeThemeVariables_bright_primary_kept (o : object) :
  exists light dark,
    computeThemeVariables (RObj o) false = Normal light
    /\ computeThemeVariables (RObj o) true = Normal dark
    /\ dark !! "--theme-primary-light" = light !! "--theme-primary-light"
    /\ (hexToRgb (getField o "primary") = Normal None
        \/ (exists c, hexToRgb (getField o "primary") = Normal (Some c)
                      /\ (inject_Z 128 <= brightness c)%Q) ->
        dark !! "--theme-primary" = light !! "--theme-primary"
        /\ dark !! "--theme-primary-hover" = light !! "--theme-primary-hover"
        /\ dark !! "--theme-primary-dark" = light !! "--theme-primary-dark").
Proof.
  destruct (computeThemeVariables_normal o false) as [light Hl].
  destruct (computeThemeVariables_normal o true) as [dark Hd].
  destruct (getDarkModeColors_normal o) as [t Ht].
  exists light, dark. split; [exact Hl|]. split; [exact Hd|]. split.
  - rewrite (computeThemeVariables_lookup_fixed _ _ _ true _ Ht Hd);
      [|alpha_name|alpha_name].
    rewrite (computeThemeVariables_lookup_fixed o o _ false _ eq_refl Hl);
      [|alpha_name|alpha_name].
    cbn [lastAssoc map variableTable fst snd String.eqb Ascii.eqb Bool.eqb].
    unfold getField. do 2 f_equal.
    destruct (getDarkModeColors_cases o t Ht) as [[-> _]|(c & _ & _ & ->)].
    + apply lookup_overrideAll_None. reflexivity.
    + rewrite lookup_overrideAll_None by reflexivity.
      apply lookup_overrideAll_None. reflexivity.
  - intros Hc. rewrite (getDarkModeColors_plain o Hc) in Ht.
    apply Normal_inj in Ht. subst t.
    repeat split;
      (rewrite (computeThemeVariables_lookup_fixed o
                  (overrideAll o (darkOverrides (getField o "primary"))) _ true _
                  (getDarkModeColors_plain o Hc) Hd);
         [|alpha_name|alpha_name];
       rewrite (computeThemeVariables_lookup_fixed o o _ false _ eq_refl Hl);
         [|alpha_name|alpha_name];
       cbn [lastAssoc map variableTable fst snd String.eqb Ascii.eqb Bool.eqb];
       unfold getField; do 2 f_equal;
       apply lookup_overrideAll_None; reflexivity).
Qed.

Lemma computeThemeVariables_bright_primary_kept_witness :
  exists light dark,
    computeThemeVariables (RObj white) false = Normal light
    /\ computeThemeVariables (RObj white) true = Normal dark
    /\ dark !! "--theme-primary" = light !! "--theme-primary".
Proof.
  destruct (computeThemeVariables_bright_primary_kept white)
    as (light & dark & Hl & Hd & _ & Hkept).
  exists light, dark. split; [exact Hl|]. split; [exact Hd|].
  assert (Hp : hexToRgb (getField white "primary") = Normal (Some (mkRgb 255 255 255)))
    by (vm_compute; reflexivity).
  assert (Hb : (inject_Z 128 <= brightness (mkRgb 255 255 255))%Q)
    by (vm_compute; discriminate).
  apply Hkept. right. exists (mkRgb 255 255 255). split; [exact Hp | exact Hb].
Defined.

End BrightPrimary.
